(** * FileSignatureScanner: signature matching and extraction dispatch

    A shallow embedding of [src/main.py] (class [FileSignatureScanner]) and
    the properties of its natural-language specification.

    Modelling conventions.
    - Python [bytes] are [list byte]; Python [str] is [string], whose
      characters are 8-bit: [bytes.fromhex] treats every character outside
      the hex digits and ASCII white space alike, as an error.
    - A call runs in the monad [M]: it threads the table of open handles and
      the trace of file-system operations, and ends in a value ([Ok]) or in a
      raised exception ([Raise]).  Exceptions are modelled by their class.
    - The file system and the three libraries the class calls ([json],
      [magic], [olefile]) are the fields of a [world]; every theorem
      quantifies over it.
    - [logging] calls are left out: they touch no file of the model and do
      not influence control flow or results. *)

From Stdlib Require Import List Bool Arith NArith ZArith Lia.
From Stdlib.Strings Require Import String Ascii Byte.
Import ListNotations.

Local Open Scope string_scope.
Local Open Scope list_scope.

(** ** Bytes *)

Module Bytes.

Definition bytes := list byte.

(** [bytes.startswith(prefix)]: every byte of [prefix] is met, in order,
    at the start of the buffer; a buffer that ends first does not match. *)
Fixpoint startswith (buf prefix : bytes) {struct prefix} : bool :=
  match prefix with
  | [] => true
  | p :: prefix' =>
      match buf with
      | [] => false
      | b :: buf' => Byte.eqb b p && startswith buf' prefix'
      end
  end.

(** [_PyLong_DigitValue[c] < 16]: the value of a hexadecimal digit. *)
Definition hex_digit (c : ascii) : option N :=
  let n := N_of_ascii c in
  if (48 <=? n)%N && (n <=? 57)%N then Some (n - 48)%N
  else if (97 <=? n)%N && (n <=? 102)%N then Some (n - 87)%N
  else if (65 <=? n)%N && (n <=? 70)%N then Some (n - 55)%N
  else None.

(** [Py_ISSPACE]: space, tab, line feed, vertical tab, form feed and
    carriage return. *)
Definition is_space (c : ascii) : bool :=
  let n := N_of_ascii c in
  (n =? 32)%N || ((9 <=? n)%N && (n <=? 13)%N).

Definition byte_of_nibbles (top bot : N) : byte :=
  byte_of_ascii (ascii_of_N (top * 16 + bot)).

(** [bytes.fromhex(s)]: white space is skipped between two-digit groups,
    never inside one; anything else raises [ValueError] ([None] here). *)
Fixpoint fromhex (s : string) : option bytes :=
  match s with
  | EmptyString => Some []
  | String c rest =>
      if is_space c then fromhex rest
      else
        match hex_digit c, rest with
        | Some top, String c' rest' =>
            match hex_digit c' with
            | Some bot =>
                match fromhex rest' with
                | Some tl => Some (byte_of_nibbles top bot :: tl)
                | None => None
                end
            | None => None
            end
        | _, _ => None
        end
  end.

End Bytes.
Import Bytes.

(** ** Python values, as [json.load] builds them *)

(** A [dict] is kept as the list of its items in insertion order, which is
    the order [.items()] iterates in. *)
#[local] Set Warnings "-register-all".
Inductive pyval :=
| PNone
| PBool (b : bool)
| PInt (z : Z)
| PFloat (literal : string)
| PStr (s : string)
| PList (l : list pyval)
| PDict (d : list (string * pyval)).

(** ** Exceptions and results *)

Inductive exn_class :=
| Exception
| OSError            (* [IOError] is an alias of [OSError] *)
| FileNotFoundError
| ValueError
| JSONDecodeError
| UnicodeDecodeError
| AttributeError
| TypeError
| OleFileIOError
| NotOleFileError
| MagicException.

Scheme Equality for exn_class.

Definition base_class (c : exn_class) : option exn_class :=
  match c with
  | Exception => None
  | OSError => Some Exception
  | FileNotFoundError => Some OSError
  | ValueError => Some Exception
  | JSONDecodeError => Some ValueError
  | UnicodeDecodeError => Some ValueError
  | AttributeError => Some Exception
  | TypeError => Some Exception
  | OleFileIOError => Some OSError
  | NotOleFileError => Some OleFileIOError
  | MagicException => Some Exception
  end.

Fixpoint isinstance_upto (depth : nat) (c d : exn_class) : bool :=
  exn_class_beq c d ||
  match depth, base_class c with
  | S depth', Some b => isinstance_upto depth' b d
  | _, _ => false
  end.

(** [isinstance(e, d)] for an exception [e] of class [c]; no class of the
    model is more than three steps below [Exception]. *)
Definition isinstance (c d : exn_class) : bool := isinstance_upto 3 c d.

Inductive result (A : Type) :=
| Ok (a : A)
| Raise (e : exn_class).
Arguments Ok {A} a.
Arguments Raise {A} e.

(** Iteration and conversions the scan applies to loaded values. *)

(** [v.items()] *)
Definition py_items (v : pyval) : result (list (string * pyval)) :=
  match v with
  | PDict d => Ok d
  | _ => Raise AttributeError
  end.

(** [for x in v] *)
Definition py_iter (v : pyval) : result (list pyval) :=
  match v with
  | PList l => Ok l
  | PStr s => Ok (map (fun c => PStr (String c EmptyString)) (list_ascii_of_string s))
  | PDict d => Ok (map (fun kv => PStr (fst kv)) d)
  | _ => Raise TypeError
  end.

(** [bytes.fromhex(v)] *)
Definition py_fromhex (v : pyval) : result bytes :=
  match v with
  | PStr s =>
      match fromhex s with
      | Some b => Ok b
      | None => Raise ValueError
      end
  | _ => Raise TypeError
  end.

(** ** The environment *)

(** What a path names: nothing; something that exists ([os.path.exists] is
    true) but cannot be opened (a directory, no permission); a file that
    opens but whose reads fail; a readable file with its content. *)
Inductive node :=
| Absent
| Denied
| Faulty
| File (content : bytes).

(** An opened OLE container: the storage paths [listdir()] reports, and
    what [openstream(name).read()] gives. *)
Record ole_container := {
  listdir : list (list string);
  openstream_read : string -> result bytes
}.

Record world := {
  fs : string -> node;
  json_load : bytes -> result pyval;          (* [json.load] on a file with this content *)
  magic_from_buffer : bytes -> result string; (* [magic.Magic(mime=True, ...).from_buffer] *)
  isOleFile : string -> result bool;          (* [olefile.isOleFile] *)
  OleFileIO : string -> result ole_container  (* [olefile.OleFileIO] *)
}.

(** ** Handles, trace and the monad of a call *)

Inductive event :=
| EvExists (path : string)
| EvOpen (path : string)
| EvRead (handle : nat)
| EvClose (handle : nat)
| EvIsOle (path : string)
| EvOleOpen (path : string)
| EvOleStream (handle : nat) (name : string)
| EvOleClose (handle : nat)
| EvMagic.

Record state := {
  next_handle : nat;
  open_handles : list (nat * string);
  trace : list event
}.

Definition M (A : Type) : Type := state -> result A * state.

Definition ret {A} (a : A) : M A := fun st => (Ok a, st).

Definition raise {A} (e : exn_class) : M A := fun st => (Raise e, st).

Definition bind {A B} (m : M A) (k : A -> M B) : M B :=
  fun st =>
    match m st with
    | (Ok a, st') => k a st'
    | (Raise e, st') => (Raise e, st')
    end.

Notation "x <- m ;; k" := (bind m (fun x => k))
  (at level 61, m at next level, right associativity).
Notation "m ;;; k" := (bind m (fun _ => k))
  (at level 61, right associativity).

Definition lift {A} (r : result A) : M A := fun st => (r, st).

Definition emit (e : event) : M unit :=
  fun st => (Ok tt, {| next_handle := next_handle st;
                       open_handles := open_handles st;
                       trace := trace st ++ [e] |}).

(** [try: body  except c1: h1  except c2: h2 ...]: the first clause whose
    class the exception is an instance of handles it. *)
Definition handlers (A : Type) := list (exn_class * M A).

Fixpoint select_handler {A} (hs : handlers A) (e : exn_class) : option (M A) :=
  match hs with
  | [] => None
  | (c, h) :: hs' => if isinstance e c then Some h else select_handler hs' e
  end.

Definition try_except {A} (body : M A) (hs : handlers A) : M A :=
  fun st =>
    match body st with
    | (Raise e, st') =>
        match select_handler hs e with
        | Some h => h st'
        | None => (Raise e, st')
        end
    | r => r
    end.

(** ** The scan of a loaded signature table

    The two nested [for] loops of [identify_file_type].  They touch no file,
    so they are written over [result]; [Ok None] is a loop that ran to its
    end without returning. *)

(** [for signature in signatures: if header.startswith(bytes.fromhex(signature)): return file_type] *)
Fixpoint scan_signatures (header : bytes) (file_type : string)
    (signatures : list pyval) : result (option string) :=
  match signatures with
  | [] => Ok None
  | signature :: rest =>
      match py_fromhex signature with
      | Raise e => Raise e
      | Ok pattern =>
          if startswith header pattern then Ok (Some file_type)
          else scan_signatures header file_type rest
      end
  end.

(** [for file_type, signatures in items: ...] *)
Fixpoint scan_items (header : bytes) (items : list (string * pyval))
    : result (option string) :=
  match items with
  | [] => Ok None
  | (file_type, signatures) :: rest =>
      match py_iter signatures with
      | Raise e => Raise e
      | Ok sigs =>
          match scan_signatures header file_type sigs with
          | Ok None => scan_items header rest
          | r => r
          end
      end
  end.

Definition scan_table (header : bytes) (table : pyval) : result (option string) :=
  match py_items table with
  | Raise e => Raise e
  | Ok items => scan_items header items
  end.

(** ** The class *)

Record scanner := {
  signature_db : option string;
  signatures : pyval
}.

(** Truth value of an [Optional[str]]: [None] and the empty string are
    false. *)
Definition truthy (s : option string) : bool :=
  match s with
  | None => false
  | Some s' => negb (s' =? "")
  end.

Definition OLE_STORAGE : string := "application/x-ole-storage".
Definition IMAGE_JPEG : string := "image/jpeg".

(** The table of open handles once handle [h] is closed. *)
Definition without (h : nat) (hs : list (nat * string)) : list (nat * string) :=
  filter (fun e => negb (fst e =? h)%nat) hs.

Section Scanner.

Variable w : world.

(** [os.path.exists(path)] *)
Definition os_path_exists (path : string) : M bool :=
  emit (EvExists path) ;;;
  ret (match fs w path with Absent => false | _ => true end).

(** [open(path, ...)] for reading: a fresh handle on success. *)
Definition open_file (path : string) : M nat :=
  emit (EvOpen path) ;;;
  match fs w path with
  | Absent => raise FileNotFoundError
  | Denied => raise OSError
  | _ =>
      fun st =>
        let h := next_handle st in
        (Ok h, {| next_handle := S h;
                  open_handles := (h, path) :: open_handles st;
                  trace := trace st |})
  end.

Definition release (h : nat) (st : state) : state :=
  {| next_handle := next_handle st;
     open_handles := without h (open_handles st);
     trace := trace st |}.

(** [f.close()] *)
Definition close_file (h : nat) : M unit :=
  emit (EvClose h) ;;;
  fun st => (Ok tt, release h st).

(** [f.read(size)] on a handle just opened ([None]: to the end of the
    file).  Each handle of the class is read once, from the start. *)
Definition read_file (h : nat) (size : option nat) : M bytes :=
  emit (EvRead h) ;;;
  fun st =>
    match find (fun e => (fst e =? h)%nat) (open_handles st) with
    | None => (Raise ValueError, st)      (* I/O operation on closed file *)
    | Some (_, path) =>
        match fs w path with
        | File content =>
            (Ok (match size with
                 | Some n => firstn n content
                 | None => content
                 end), st)
        | _ => (Raise OSError, st)
        end
    end.

(** [with open(path, ...) as f: body]: the handle is closed when the
    block is left, by its end or by an exception. *)
Definition with_open {A} (path : string) (body : nat -> M A) : M A :=
  f <- open_file path ;;
  fun st =>
    let (r, st') := body f st in
    match close_file f st' with
    | (_, st'') => (r, st'')
    end.

(** [FileSignatureScanner.__init__].  [magic.Magic(...)] builds the
    classifier, which the model keeps in the world; [json.load(f)] reads
    the open file to its end and parses the text. *)
Definition __init__ (signature_db : option string) : M scanner :=
  let self := {| signature_db := signature_db; signatures := PDict [] |} in
  match signature_db with
  | Some db =>
      if truthy signature_db then
        try_except
          (table <- with_open db (fun f =>
                      text <- read_file f None ;;
                      lift (json_load w text)) ;;
           ret {| signature_db := signature_db; signatures := table |})
          [ (FileNotFoundError, raise FileNotFoundError);
            (JSONDecodeError, raise ValueError) ]
      else ret self
  | None => ret self
  end.

(** [FileSignatureScanner.identify_file_type] *)
Definition identify_file_type (self : scanner) (file_path : string)
    : M (option string) :=
  found <- os_path_exists file_path ;;
  if negb found then ret None
  else
    read <- try_except
              (header <- with_open file_path (fun f => read_file f (Some 1024)) ;;
               ret (Some header))
              [ (OSError, ret None) ] ;;
    match read with
    | None => ret None
    | Some header =>
        if truthy (signature_db self) then
          lift (scan_table header (signatures self))
        else
          try_except
            (emit EvMagic ;;;
             mime_type <- lift (magic_from_buffer w header) ;;
             if negb (mime_type =? "") then ret (Some mime_type)
             else ret None)
            [ (Exception, ret None) ]
    end.

(** [olefile.OleFileIO(path)]: the container keeps the file open. *)
Definition ole_open (path : string) : M (nat * ole_container) :=
  emit (EvOleOpen path) ;;;
  ole <- lift (OleFileIO w path) ;;
  fun st =>
    let h := next_handle st in
    (Ok (h, ole), {| next_handle := S h;
                     open_handles := (h, path) :: open_handles st;
                     trace := trace st |}).

(** [ole.close()] *)
Definition ole_close (ole : nat * ole_container) : M unit :=
  emit (EvOleClose (fst ole)) ;;;
  fun st => (Ok tt, release (fst ole) st).

(** [ole.openstream(name).read()] *)
Definition ole_openstream_read (ole : nat * ole_container) (name : string)
    : M bytes :=
  emit (EvOleStream (fst ole) name) ;;;
  lift (openstream_read (snd ole) name).

(** [for stream_name in ole.listdir(): if stream_name: ... return stream_data]
    and the three statements after the loop. *)
Fixpoint first_stream (ole : nat * ole_container)
    (entries : list (list string)) : M (option bytes) :=
  match entries with
  | [] =>
      ole_close ole ;;;
      ret None
  | stream_name :: rest =>
      match stream_name with
      | name0 :: _ =>
          stream_data <- ole_openstream_read ole name0 ;;
          ret (Some stream_data)
      | [] => first_stream ole rest
      end
  end.

(** [FileSignatureScanner.extract_data] *)
Definition extract_data (self : scanner) (file_path file_type : string)
    : M (option bytes) :=
  if file_type =? OLE_STORAGE then
    try_except
      (valid <- (emit (EvIsOle file_path) ;;; lift (isOleFile w file_path)) ;;
       if (valid : bool) then
         ole <- ole_open file_path ;;
         first_stream ole (listdir (snd ole))
       else ret None)
      [ (OleFileIOError, ret None) ]
  else if file_type =? IMAGE_JPEG then
    try_except
      (data <- with_open file_path (fun f => read_file f None) ;;
       ret (Some data))
      [ (OSError, ret None) ]
  else ret None.

End Scanner.

Definition initial_state : state :=
  {| next_handle := 0; open_handles := []; trace := [] |}.

(** Handles are handed out in increasing order: every open one is below
    the next one. *)
Definition wf_state (st : state) : Prop :=
  Forall (fun e => fst e < next_handle st) (open_handles st).

(** A computation that releases what it opens: from a well-formed state it
    ends, by a value or by an exception, in a well-formed state with the
    same handles open. *)
Definition closes {A} (m : M A) : Prop :=
  forall st,
    wf_state st ->
    wf_state (snd (m st)) /\ open_handles (snd (m st)) = open_handles st.

(** ** Signature tables

    A well-typed source maps each label to a list of hex strings; this is
    the value [json.load] leaves in [self.signatures] for it. *)

Definition hex_table := list (string * list string).

Definition loaded (t : hex_table) : pyval :=
  PDict (map (fun e => (fst e, PList (map PStr (snd e)))) t).

(** The (label, hex string) pairs in the order the two loops visit them. *)
Definition hex_scan_order (t : hex_table) : list (string * string) :=
  flat_map (fun e => map (pair (fst e)) (snd e)) t.

(** The scan written as one loop over that order. *)
Fixpoint scan_flat (header : bytes) (l : list (string * string))
    : result (option string) :=
  match l with
  | [] => Ok None
  | (label, h) :: rest =>
      match fromhex h with
      | None => Raise ValueError
      | Some p =>
          if startswith header p then Ok (Some label)
          else scan_flat header rest
      end
  end.

(** A pattern that the scan can reach in any loaded value: a decodable
    element of the iterable stored under [label]. *)
Definition listed (table : pyval) (label : string) (pattern : bytes) : Prop :=
  exists items sigs_v sigs sig,
    py_items table = Ok items /\
    In (label, sigs_v) items /\
    py_iter sigs_v = Ok sigs /\
    In sig sigs /\
    py_fromhex sig = Ok pattern.

(** ** The specification's vocabulary *)

Module Spec.

(** SignatureTable: labels with their ordered byte patterns. *)
Definition SignatureTable := list (string * list bytes).

(** Table iteration order, then pattern order within a label. *)
Definition scan_order (t : SignatureTable) : list (string * bytes) :=
  flat_map (fun e => map (pair (fst e)) (snd e)) t.

(** The label of the first pattern, in scan order, that the prefix
    starts with. *)
Definition first_match (t : SignatureTable) (prefix : bytes) : option string :=
  option_map fst (find (fun lp => startswith prefix (snd lp)) (scan_order t)).

(** ExtractionResult: the four tagged outcomes of [extract]. *)
Inductive ExtractionResult :=
| Payload (data : bytes)
| Empty
| Unsupported (label : string)
| Failure (reason : string).

End Spec.
Import Spec.

(** Decoding a hex table into the specification's table of byte patterns;
    [None] when some string is not hex. *)
Fixpoint decode_patterns (hs : list string) : option (list bytes) :=
  match hs with
  | [] => Some []
  | h :: hs' =>
      match fromhex h, decode_patterns hs' with
      | Some p, Some ps => Some (p :: ps)
      | _, _ => None
      end
  end.

Fixpoint decode_table (t : hex_table) : option SignatureTable :=
  match t with
  | [] => Some []
  | (label, hs) :: t' =>
      match decode_patterns hs, decode_table t' with
      | Some ps, Some st => Some ((label, ps) :: st)
      | _, _ => None
      end
  end.

(** ** A small concrete world, used to run the model *)

Module Sample.

Definition dq : string := String (ascii_of_nat 34) EmptyString.
Definition q (s : string) : string := dq ++ s ++ dq.

Definition encode (s : string) : bytes := list_byte_of_string s.

(** [{"A": ["AA"], "B": ["BB"]}], the table of the specification. *)
Definition ab_table : hex_table := [("A", ["AA"]); ("B", ["BB"])].
Definition ab_text : string :=
  "{" ++ q "A" ++ ": [" ++ q "AA" ++ "], " ++ q "B" ++ ": [" ++ q "BB" ++ "]}".

(** [{"A": ["ZZ"], "B": ["BB"]}]: the first string is not hex. *)
Definition zz_table : hex_table := [("A", ["ZZ"]); ("B", ["BB"])].
Definition zz_text : string :=
  "{" ++ q "A" ++ ": [" ++ q "ZZ" ++ "], " ++ q "B" ++ ": [" ++ q "BB" ++ "]}".

(** Two labels whose patterns overlap, and one with the empty pattern. *)
Definition overlap_table : hex_table :=
  [("short", ["BB"; "AA"]); ("long", ["AABB"])].
Definition catch_all_table : hex_table :=
  [("jpeg", ["FFD8FF"]); ("any", [""])].
Definition long_first_table : hex_table :=
  [("long", ["AABB"]); ("short", ["AA"])].

(** The byte patterns [overlap_table] and [catch_all_table] decode to. *)
Definition overlap_patterns : SignatureTable :=
  [("short", [[xbb]; [xaa]]); ("long", [[xaa; xbb]])].
Definition catch_all_patterns : SignatureTable :=
  [("jpeg", [[xff; xd8; xff]]); ("any", [[]])].

Definition jpeg_bytes : bytes := [xff; xd8; xff; xe0; x00; x10].
Definition aabb_bytes : bytes := [xaa; xbb; x01].
Definition stream_bytes : bytes := [x01; x02; x03].

Definition sample_fs (path : string) : node :=
  if path =? "ab.json" then File (encode ab_text)
  else if path =? "zz.json" then File (encode zz_text)
  else if path =? "broken.json" then File (encode "{not json")
  else if path =? "photo.jpg" then File jpeg_bytes
  else if path =? "aabb.bin" then File aabb_bytes
  else if path =? "aa.bin" then File [xaa]
  else if path =? "empty.bin" then File []
  else if path =? "doc.ole" then File [xd0; xcf; x11; xe0]
  else if path =? "empty.ole" then File [xd0; xcf; x11; xe0]
  else if path =? "locked.bin" then Denied
  else Absent.

Definition sample_json_load (text : bytes) : result pyval :=
  let s := string_of_list_byte text in
  if s =? ab_text then Ok (loaded ab_table)
  else if s =? zz_text then Ok (loaded zz_table)
  else Raise JSONDecodeError.

Definition sample_magic (buf : bytes) : result string :=
  if startswith buf [xff; xd8; xff] then Ok "image/jpeg"
  else Ok "application/octet-stream".

Definition is_ole_path (path : string) : bool :=
  (path =? "doc.ole") || (path =? "empty.ole").

Definition sample_isOleFile (path : string) : result bool :=
  match sample_fs path with
  | File _ => Ok (is_ole_path path)
  | Absent => Raise FileNotFoundError
  | _ => Raise OSError
  end.

Definition sample_OleFileIO (path : string) : result ole_container :=
  if path =? "doc.ole" then
    Ok {| listdir := [["WordDocument"]; ["Macros"; "VBA"; "dir"]];
          openstream_read := fun name =>
            if name =? "WordDocument" then Ok stream_bytes
            else Raise OSError |}
  else if path =? "empty.ole" then
    Ok {| listdir := []; openstream_read := fun _ => Raise OSError |}
  else Raise NotOleFileError.

Definition sample_world : world :=
  {| fs := sample_fs;
     json_load := sample_json_load;
     magic_from_buffer := sample_magic;
     isOleFile := sample_isOleFile;
     OleFileIO := sample_OleFileIO |}.

Definition scanner_of (t : hex_table) : scanner :=
  {| signature_db := Some "table.json"; signatures := loaded t |}.

End Sample.

(** ** The command line

    [main], after [parser.parse_args()] has returned its namespace.  The
    parser itself is [argparse]'s and is not modelled. *)

Module Cli.

(** The namespace [setup_argparse] declares: a positional [file_path],
    [-d/--database], the flag [-e/--extract] and [-o/--output]. *)
Record args := {
  file_path : string;
  database : option string;
  extract : bool;
  output : option string
}.

(** What the process writes. *)
Inductive written :=
| Print (text : string)                     (* [print(text)] *)
| PrintExn (text : string) (e : exn_class)  (* [print(f"...{e}")], [e] an exception *)
| StdoutBytes (data : bytes)                (* [sys.stdout.buffer.write(data)] *)
| FileBytes (path : string) (data : bytes). (* [outfile.write(data)] *)

(** What a path is as a destination: a file that can be written; something
    that cannot be opened for writing; a file that opens but whose writes
    fail. *)
Inductive sink :=
| Writable
| Unwritable
| Failing.

Record process := {
  io : state;
  out : list written
}.

(** How [main] ends: by returning, or by [sys.exit(code)]. *)
Inductive termination :=
| Returned
| SystemExit (code : nat).

Definition P (A : Type) : Type := process -> result A * process.

Definition pret {A} (a : A) : P A := fun p => (Ok a, p).

Definition pbind {A B} (m : P A) (k : A -> P B) : P B :=
  fun p =>
    match m p with
    | (Ok a, p') => k a p'
    | (Raise e, p') => (Raise e, p')
    end.

Notation "x <-- m ;; k" := (pbind m (fun x => k))
  (at level 61, m at next level, right associativity).
Notation "m ;;;; k" := (pbind m (fun _ => k))
  (at level 61, right associativity).

(** A call of the class, run inside the process. *)
Definition call {A} (m : M A) : P A :=
  fun p =>
    let (r, st') := m (io p) in
    (r, {| io := st'; out := out p |}).

Definition write (x : written) : P unit :=
  fun p => (Ok tt, {| io := io p; out := out p ++ [x] |}).

(** [try: body  except c1 as e: h1(e) ...] *)
Fixpoint select {A} (hs : list (exn_class * (exn_class -> P A))) (e : exn_class)
    : option (P A) :=
  match hs with
  | [] => None
  | (c, h) :: hs' => if isinstance e c then Some (h e) else select hs' e
  end.

Definition ptry {A} (body : P A) (hs : list (exn_class * (exn_class -> P A)))
    : P A :=
  fun p =>
    match body p with
    | (Raise e, p') =>
        match select hs e with
        | Some h => h p'
        | None => (Raise e, p')
        end
    | r => r
    end.

(** Truth value of an [Optional[bytes]]: [None] and [b""] are false. *)
Definition nonempty (data : option bytes) : bool :=
  match data with
  | Some (_ :: _) => true
  | _ => false
  end.

Section Main.

Variable w : world.
Variable sinks : string -> sink.

(** [open(path, "wb")] *)
Definition open_wb (path : string) : M nat :=
  emit (EvOpen path) ;;;
  match sinks path with
  | Unwritable => raise OSError
  | _ =>
      fun st =>
        let h := next_handle st in
        (Ok h, {| next_handle := S h;
                  open_handles := (h, path) :: open_handles st;
                  trace := trace st |})
  end.

(** [outfile.write(data)] *)
Definition file_write (path : string) (data : bytes) : P unit :=
  match sinks path with
  | Writable => write (FileBytes path data)
  | _ => fun p => (Raise OSError, p)
  end.

(** [with open(path, "wb") as outfile: outfile.write(data)] *)
Definition save (path : string) (data : bytes) : P unit :=
  outfile <-- call (open_wb path) ;;
  fun p =>
    let (r, p') := file_write path data p in
    match call (close_file outfile) p' with
    | (_, p'') => (r, p'')
    end.

(** The body of the [try] statement of [main]. *)
Definition main_body (a : args) : P unit :=
  scanner <-- call (__init__ w (database a)) ;;
  file_type <-- call (identify_file_type w scanner (file_path a)) ;;
  match file_type with
  | Some ft =>
      if truthy file_type then
        write (Print ("Identified file type: " ++ ft)) ;;;;
        if extract a then
          extracted_data <-- call (extract_data w scanner (file_path a) ft) ;;
          match extracted_data with
          | Some data =>
              if nonempty extracted_data then
                match output a with
                | Some path =>
                    if truthy (output a) then
                      ptry
                        (save path data ;;;;
                         write (Print ("Extracted data saved to: " ++ path)))
                        [ (OSError, fun e =>
                             write (PrintExn "Error writing extracted data to file: " e)) ]
                    else write (StdoutBytes data)
                | None => write (StdoutBytes data)
                end
              else write (Print "No data extracted.")
          | None => write (Print "No data extracted.")
          end
        else pret tt
      else write (Print "File type not identified.")
  | None => write (Print "File type not identified.")
  end.

(** [main] *)
Definition main (a : args) : P termination :=
  ptry
    (main_body a ;;;; pret Returned)
    [ (FileNotFoundError, fun e =>
         write (PrintExn "Error: " e) ;;;; pret (SystemExit 1));
      (ValueError, fun e =>
         write (PrintExn "Error: " e) ;;;; pret (SystemExit 1));
      (Exception, fun e =>
         write (PrintExn "An unexpected error occurred: " e) ;;;;
         pret (SystemExit 1)) ].

End Main.

Definition start : process := {| io := initial_state; out := [] |}.

End Cli.

(** ** More concrete worlds *)

Module Sample2.

(** The sample world with a classifier that always fails. *)
Definition silent_world : world :=
  {| fs := Sample.sample_fs;
     json_load := Sample.sample_json_load;
     magic_from_buffer := fun _ => Raise MagicException;
     isOleFile := Sample.sample_isOleFile;
     OleFileIO := Sample.sample_OleFileIO |}.

(** The sample world with a classifier that fails on more than 1024
    bytes. *)
Definition capped_world : world :=
  {| fs := Sample.sample_fs;
     json_load := Sample.sample_json_load;
     magic_from_buffer := fun buf =>
       if (List.length buf <=? 1024)%nat then Sample.sample_magic buf
       else Raise MagicException;
     isOleFile := Sample.sample_isOleFile;
     OleFileIO := Sample.sample_OleFileIO |}.

(** A pattern of 1025 zero bytes, as hex and decoded. *)
Definition long_hex : string := String.concat "" (repeat "00" 1025).
Definition long_table : hex_table := [("big", [long_hex])].
Definition long_patterns : SignatureTable := [("big", [repeat x00 1025])].

(** The byte patterns [Sample.ab_table] decodes to. *)
Definition ab_patterns : SignatureTable := [("A", [[xaa]]); ("B", [[xbb]])].

(** Destinations: one that can be written, one whose writes fail; nothing
    else can be opened for writing. *)
Definition sample_sinks (path : string) : Cli.sink :=
  if path =? "out.bin" then Cli.Writable
  else if path =? "full.bin" then Cli.Failing
  else Cli.Unwritable.

Definition run (a : Cli.args) : result Cli.termination * Cli.process :=
  Cli.main Sample.sample_world sample_sinks a Cli.start.

End Sample2.

(** * Properties *)

(** ** Running the model *)

Example fromhex_jpeg : fromhex "FFD8 ff" = Some [xff; xd8; xff].
Proof. reflexivity. Qed.

Example fromhex_odd_length : fromhex "ABC" = None.
Proof. reflexivity. Qed.

Example fromhex_space_inside_pair : fromhex "A B" = None.
Proof. reflexivity. Qed.

Example isinstance_not_ole : isinstance NotOleFileError OSError = true.
Proof. reflexivity. Qed.

(** The example of the specification: table [{"A": ["AA"], "B": ["BB"]}]
    and a file that starts with [0xAA]. *)
Example identify_ab :
  fst (identify_file_type Sample.sample_world
         (Sample.scanner_of Sample.ab_table) "aabb.bin" initial_state)
  = Ok (Some "A").
Proof. reflexivity. Qed.

Example identify_with_magic :
  fst (identify_file_type Sample.sample_world
         {| signature_db := None; signatures := PDict [] |}
         "photo.jpg" initial_state)
  = Ok (Some "image/jpeg").
Proof. reflexivity. Qed.

Example init_loads_table :
  fst (__init__ Sample.sample_world (Some "ab.json") initial_state)
  = Ok {| signature_db := Some "ab.json";
          signatures := loaded Sample.ab_table |}.
Proof. reflexivity. Qed.

(** ** Prefix test *)

Section StartsWith.

Lemma startswith_nil (buf : bytes) : startswith buf [] = true.
Proof. destruct buf; reflexivity. Qed.

Lemma startswith_cons (b p : byte) (buf prefix : bytes) :
  startswith (b :: buf) (p :: prefix) = true <->
  b = p /\ startswith buf prefix = true.
Proof.
  simpl. rewrite andb_true_iff. split; intros [Hb Hs]; split; auto.
  - now apply byte_dec_bl.
  - now apply byte_dec_lb.
Qed.

Lemma startswith_length (buf prefix : bytes) :
  startswith buf prefix = true -> List.length prefix <= List.length buf.
Proof.
  revert buf. induction prefix as [|p prefix IH]; intros buf H.
  - simpl. lia.
  - destruct buf as [|b buf]; [discriminate|].
    apply startswith_cons in H as [_ H]. apply IH in H. simpl. lia.
Qed.

Lemma startswith_short (buf prefix : bytes) :
  List.length buf < List.length prefix -> startswith buf prefix = false.
Proof.
  intros Hlt. destruct (startswith buf prefix) eqn:E; [|reflexivity].
  apply startswith_length in E. lia.
Qed.

(** The test compares the slice [buf[:len(prefix)]] with [prefix]. *)
Lemma startswith_firstn (buf prefix : bytes) :
  startswith buf prefix = true <-> firstn (List.length prefix) buf = prefix.
Proof.
  revert buf. induction prefix as [|p prefix IH]; intros buf.
  - simpl. split; reflexivity.
  - destruct buf as [|b buf].
    + simpl. split; discriminate.
    + rewrite startswith_cons. simpl. rewrite IH. split.
      * intros [-> ->]. reflexivity.
      * intros H. injection H as -> H. auto.
Qed.

Lemma startswith_app (prefix rest : bytes) :
  startswith (prefix ++ rest) prefix = true.
Proof.
  induction prefix as [|p prefix IH]; simpl.
  - reflexivity.
  - rewrite IH, andb_true_r. now apply byte_dec_lb.
Qed.

End StartsWith.

(** ** The scan *)

Section Scan.

Variable header : bytes.

(** A label the scan returns comes from a decodable element, stored
    under that label, that the header starts with. *)
Lemma scan_signatures_some (file_type : string) (sigs : list pyval) (l : string) :
  scan_signatures header file_type sigs = Ok (Some l) ->
  l = file_type /\
  exists sig p, In sig sigs /\ py_fromhex sig = Ok p /\ startswith header p = true.
Proof.
  induction sigs as [|sig sigs IH]; simpl; [discriminate|].
  destruct (py_fromhex sig) as [p|e] eqn:Ep; [|discriminate].
  destruct (startswith header p) eqn:Es.
  - intros H. injection H as <-. split; [reflexivity|].
    exists sig, p. auto.
  - intros H. destruct (IH H) as (-> & sig' & p' & Hin & Hd & Hm).
    split; [reflexivity|]. exists sig', p'. auto.
Qed.

Lemma scan_items_some (items : list (string * pyval)) (l : string) :
  scan_items header items = Ok (Some l) ->
  exists sigs_v sigs sig p,
    In (l, sigs_v) items /\ py_iter sigs_v = Ok sigs /\ In sig sigs /\
    py_fromhex sig = Ok p /\ startswith header p = true.
Proof.
  induction items as [|[ft sv] items IH]; simpl; [discriminate|].
  destruct (py_iter sv) as [sigs|e] eqn:Ei; [|discriminate].
  destruct (scan_signatures header ft sigs) as [[l'|]|e] eqn:Es.
  - intros H. injection H as <-.
    apply scan_signatures_some in Es as (-> & sig & p & Hin & Hd & Hm).
    exists sv, sigs, sig, p. auto.
  - intros H. destruct (IH H) as (sv' & sigs' & sig & p & Hin & Hrest).
    exists sv', sigs', sig, p. auto.
  - discriminate.
Qed.

Lemma scan_table_some (table : pyval) (l : string) :
  scan_table header table = Ok (Some l) ->
  exists p, listed table l p /\ startswith header p = true.
Proof.
  unfold scan_table.
  destruct (py_items table) as [items|e] eqn:Ei; [|discriminate].
  intros H. apply scan_items_some in H as (sv & sigs & sig & p & H1 & H2 & H3 & H4 & H5).
  exists p. split; [|assumption].
  exists items, sv, sigs, sig. auto.
Qed.

(** On a table whose strings all decode, the inner loop finds a match
    exactly when some pattern of the label matches. *)
Lemma scan_signatures_decoded (file_type : string) (hs : list string) (ps : list bytes) :
  decode_patterns hs = Some ps ->
  scan_signatures header file_type (map PStr hs)
  = Ok (if existsb (startswith header) ps then Some file_type else None).
Proof.
  revert ps. induction hs as [|h hs IH]; intros ps; simpl.
  - intros H. injection H as <-. reflexivity.
  - destruct (fromhex h) as [p|]; [|discriminate].
    destruct (decode_patterns hs) as [ps'|]; [|discriminate].
    intros H. injection H as <-. simpl.
    destruct (startswith header p); [reflexivity|].
    now apply IH.
Qed.

Lemma first_match_cons (label : string) (ps : list bytes) (st : SignatureTable) :
  first_match ((label, ps) :: st) header
  = if existsb (startswith header) ps then Some label
    else first_match st header.
Proof.
  unfold first_match. simpl.
  induction ps as [|p ps IH]; simpl.
  - reflexivity.
  - destruct (startswith header p); [reflexivity|]. exact IH.
Qed.

(** The nested loops compute the specification's first match. *)
Lemma scan_table_decoded (t : hex_table) (st : SignatureTable) :
  decode_table t = Some st ->
  scan_table header (loaded t) = Ok (first_match st header).
Proof.
  unfold scan_table, loaded. simpl.
  revert st. induction t as [|[label hs] t IH]; intros st; simpl.
  - intros H. injection H as <-. reflexivity.
  - destruct (decode_patterns hs) as [ps|] eqn:Ep; [|discriminate].
    destruct (decode_table t) as [st'|]; [|discriminate].
    intros H. injection H as <-.
    rewrite (scan_signatures_decoded label hs ps Ep), first_match_cons.
    destruct (existsb (startswith header) ps); [reflexivity|].
    now apply IH.
Qed.

End Scan.

(** ** Calls on the file system *)

Section Calls.

Variable w : world.

Lemma without_fresh (st : state) :
  wf_state st -> without (next_handle st) (open_handles st) = open_handles st.
Proof.
  unfold wf_state, without. induction 1 as [|e l He _ IH]; simpl.
  - reflexivity.
  - rewrite IH. destruct (Nat.eqb_spec (fst e) (next_handle st)); [lia|reflexivity].
Qed.

(** [with open(path, 'rb') as f: data = f.read(size)] on a readable
    file: the bytes asked for, and the handle closed at the end. *)
Lemma with_open_read (path : string) (content : bytes) (size : option nat) (st : state) :
  fs w path = File content ->
  with_open w path (fun f => read_file w f size) st
  = (Ok (match size with Some n => firstn n content | None => content end),
     {| next_handle := S (next_handle st);
        open_handles := without (next_handle st) (open_handles st);
        trace := trace st ++ [EvOpen path; EvRead (next_handle st);
                              EvClose (next_handle st)] |}).
Proof.
  intros Hfile.
  unfold with_open, open_file, read_file, close_file, release, bind, emit, ret.
  simpl. rewrite Hfile. simpl. rewrite Nat.eqb_refl. simpl.
  rewrite Hfile. simpl. rewrite Nat.eqb_refl. simpl.
  rewrite <- !app_assoc. reflexivity.
Qed.

(** Opening fails: nothing is left open. *)
Lemma with_open_absent {A} (path : string) (body : nat -> M A) (st : state) :
  fs w path = Absent ->
  with_open w path body st
  = (Raise FileNotFoundError,
     {| next_handle := next_handle st;
        open_handles := open_handles st;
        trace := trace st ++ [EvOpen path] |}).
Proof.
  intros Habs. unfold with_open, open_file, bind, emit, raise.
  simpl. rewrite Habs. reflexivity.
Qed.

Lemma os_path_exists_run (path : string) (st : state) :
  os_path_exists w path st
  = (Ok (match fs w path with Absent => false | _ => true end),
     {| next_handle := next_handle st;
        open_handles := open_handles st;
        trace := trace st ++ [EvExists path] |}).
Proof. reflexivity. Qed.

(** With a table loaded, identification of a readable file is the scan
    of its first 1024 bytes. *)
Lemma identify_readable (self : scanner) (path : string) (content : bytes) (st : state) :
  truthy (signature_db self) = true ->
  fs w path = File content ->
  identify_file_type w self path st
  = (scan_table (firstn 1024 content) (signatures self),
     {| next_handle := S (next_handle st);
        open_handles := without (next_handle st) (open_handles st);
        trace := trace st ++ [EvExists path; EvOpen path;
                              EvRead (next_handle st);
                              EvClose (next_handle st)] |}).
Proof.
  intros Hdb Hfile.
  unfold identify_file_type, bind at 1.
  rewrite os_path_exists_run, Hfile. cbn [negb].
  unfold bind at 1, try_except, bind at 1.
  rewrite (with_open_read path content (Some 1024) _ Hfile).
  cbn [ret next_handle open_handles trace]. rewrite Hdb.
  unfold lift. rewrite <- app_assoc. reflexivity.
Qed.

End Calls.

(** ** Identification against a loaded table *)

Section FirstMatch.

Context {A : Type} (f : A -> bool).

Lemma find_first (l : list A) (x : A) :
  find f l = Some x ->
  exists before after,
    l = before ++ x :: after /\ f x = true /\
    Forall (fun y => f y = false) before.
Proof.
  induction l as [|y l IH]; simpl; [discriminate|].
  destruct (f y) eqn:Ey.
  - intros H. injection H as <-. exists [], l. auto.
  - intros H. destruct (IH H) as (before & after & -> & Hx & Hall).
    exists (y :: before), after. auto.
Qed.

Lemma find_exists (l : list A) (x : A) :
  In x l -> f x = true -> exists y, find f l = Some y.
Proof.
  intros Hin Hx. destruct (find f l) as [y|] eqn:E; [eauto|].
  now rewrite (find_none f l E x Hin) in Hx.
Qed.

End FirstMatch.

(** A hex string of the source and its decoded pattern sit at matching
    places of the two scan orders. *)
Lemma decode_patterns_in (label : string) (hs : list string) (ps : list bytes) (h : string) :
  decode_patterns hs = Some ps -> In h hs ->
  exists p, fromhex h = Some p /\ In (label, p) (map (pair label) ps).
Proof.
  revert ps. induction hs as [|h' hs IH]; intros ps; simpl; [tauto|].
  destruct (fromhex h') as [p'|] eqn:Eh; [|discriminate].
  destruct (decode_patterns hs) as [ps'|]; [|discriminate].
  intros H [->|Hin]; injection H as <-.
  - exists p'. simpl. auto.
  - destruct (IH ps' eq_refl Hin) as (p & Hp & Hin'). exists p. simpl. auto.
Qed.

Lemma decode_table_in (t : hex_table) (table : SignatureTable) (label h : string) :
  decode_table t = Some table -> In (label, h) (hex_scan_order t) ->
  exists p, fromhex h = Some p /\ In (label, p) (scan_order table).
Proof.
  revert table. induction t as [|[l hs] t IH]; intros table; simpl; [tauto|].
  destruct (decode_patterns hs) as [ps|] eqn:Ep; [|discriminate].
  destruct (decode_table t) as [table'|]; [|discriminate].
  intros H Hin. injection H as <-. simpl.
  apply in_app_or in Hin as [Hin|Hin].
  - apply in_map_iff in Hin as (h' & Heq & Hin). injection Heq as <- <-.
    destruct (decode_patterns_in l hs ps h' Ep Hin) as (p & Hp & Hin').
    exists p. split; [assumption|]. apply in_or_app. auto.
  - destruct (IH table' eq_refl Hin) as (p & Hp & Hin').
    exists p. split; [assumption|]. apply in_or_app. auto.
Qed.

(** When some pattern matches, the scan stops at the first one in scan
    order and returns its label. *)
Lemma scan_stops_at_first (header : bytes) (t : hex_table) (table : SignatureTable) :
  decode_table t = Some table ->
  (exists label p, In (label, p) (scan_order table) /\ startswith header p = true) ->
  exists label p before after,
    scan_table header (loaded t) = Ok (Some label) /\
    first_match table header = Some label /\
    scan_order table = before ++ (label, p) :: after /\
    startswith header p = true /\
    Forall (fun lp => startswith header (snd lp) = false) before.
Proof.
  intros Hdec (l0 & p0 & Hin & Hm).
  rewrite (scan_table_decoded header t table Hdec). unfold first_match.
  destruct (find_exists (fun lp => startswith header (snd lp))
              (scan_order table) (l0, p0) Hin Hm) as ([label p] & Hfind).
  rewrite Hfind. simpl.
  destruct (find_first _ _ _ Hfind) as (before & after & Hsplit & Hp & Hall).
  exists label, p, before, after. auto.
Qed.

(** ** Claims about identification *)

(** C1. With a signature table loaded, a pattern longer than the prefix read
    from the file (at most 1024 bytes) fails the prefix test, and a label
    that [identify_file_type] returns is always due to another pattern: one
    listed under that label, that the prefix starts with, and no longer
    than the prefix. *)
Theorem short_prefix_never_matches :
  forall (w : world) (self : scanner) (path : string)
         (content pattern : bytes) (st : state),
    truthy (signature_db self) = true ->
    fs w path = File content ->
    List.length (firstn 1024 content) < List.length pattern ->
    startswith (firstn 1024 content) pattern = false /\
    forall label,
      fst (identify_file_type w self path st) = Ok (Some label) ->
      exists p,
        listed (signatures self) label p /\
        startswith (firstn 1024 content) p = true /\
        List.length p <= List.length (firstn 1024 content) /\
        p <> pattern.
Proof.
  intros w self path content pattern st Hdb Hfile Hshort.
  pose proof (startswith_short _ _ Hshort) as Hno.
  split; [exact Hno|].
  intros label. rewrite (identify_readable w self path content st Hdb Hfile).
  cbn [fst]. intros Hscan.
  apply scan_table_some in Hscan as (p & Hlisted & Hp).
  exists p. repeat split; try assumption.
  - now apply startswith_length.
  - intros ->. congruence.
Qed.

Lemma short_prefix_never_matches_witness :
  startswith (firstn 1024 [xaa]) [xaa; xbb] = false /\
  forall label,
    fst (identify_file_type Sample.sample_world
           (Sample.scanner_of Sample.long_first_table) "aa.bin" initial_state)
    = Ok (Some label) ->
    exists p,
      listed (loaded Sample.long_first_table) label p /\
      startswith (firstn 1024 [xaa]) p = true /\
      List.length p <= List.length (firstn 1024 [xaa]) /\
      p <> [xaa; xbb].
Proof.
  apply (short_prefix_never_matches Sample.sample_world
           (Sample.scanner_of Sample.long_first_table) "aa.bin"
           [xaa] [xaa; xbb] initial_state).
  - reflexivity.
  - reflexivity.
  - simpl. lia.
Defined.

(** C2. With a table loaded whose hex strings all decode, and a readable
    file: if some pattern of the table is a prefix of the first 1024 bytes,
    [identify_file_type] returns the label of the first matching pattern in
    the order (table iteration order, then pattern order); a second call on
    the same table and the same bytes, from any state, returns the same
    label. *)
Theorem first_match_wins :
  forall (w w' : world) (self : scanner) (t : hex_table) (table : SignatureTable)
         (path : string) (content : bytes) (st st' : state),
    truthy (signature_db self) = true ->
    signatures self = loaded t ->
    decode_table t = Some table ->
    fs w path = File content ->
    fs w' path = File content ->
    (exists label p,
        In (label, p) (scan_order table) /\
        startswith (firstn 1024 content) p = true) ->
    exists label p before after,
      fst (identify_file_type w self path st) = Ok (Some label) /\
      first_match table (firstn 1024 content) = Some label /\
      scan_order table = before ++ (label, p) :: after /\
      startswith (firstn 1024 content) p = true /\
      Forall (fun lp => startswith (firstn 1024 content) (snd lp) = false) before /\
      fst (identify_file_type w' self path st') = Ok (Some label).
Proof.
  intros w w' self t table path content st st' Hdb Hsig Hdec Hfile Hfile' Hsome.
  destruct (scan_stops_at_first _ t table Hdec Hsome)
    as (label & p & before & after & Hscan & Hfirst & Hsplit & Hp & Hall).
  exists label, p, before, after.
  rewrite (identify_readable w self path content st Hdb Hfile).
  rewrite (identify_readable w' self path content st' Hdb Hfile').
  cbn [fst]. rewrite Hsig. auto 10.
Qed.

Lemma first_match_wins_witness :
  exists label p before after,
    fst (identify_file_type Sample.sample_world
           (Sample.scanner_of Sample.overlap_table) "aabb.bin" initial_state)
    = Ok (Some label) /\
    first_match Sample.overlap_patterns (firstn 1024 Sample.aabb_bytes)
    = Some label /\
    scan_order Sample.overlap_patterns
    = before ++ (label, p) :: after /\
    startswith (firstn 1024 Sample.aabb_bytes) p = true /\
    Forall (fun lp => startswith (firstn 1024 Sample.aabb_bytes) (snd lp) = false)
           before /\
    fst (identify_file_type Sample.sample_world
           (Sample.scanner_of Sample.overlap_table) "aabb.bin"
           (snd (identify_file_type Sample.sample_world
                   (Sample.scanner_of Sample.overlap_table) "aabb.bin"
                   initial_state)))
    = Ok (Some label).
Proof.
  apply (first_match_wins Sample.sample_world Sample.sample_world
           (Sample.scanner_of Sample.overlap_table) Sample.overlap_table
           Sample.overlap_patterns
           "aabb.bin" Sample.aabb_bytes).
  - reflexivity.
  - reflexivity.
  - reflexivity.
  - reflexivity.
  - reflexivity.
  - exists "long", [xaa; xbb]. split.
    + simpl. auto.
    + reflexivity.
Defined.

(** C10. With a table loaded whose hex strings all decode and that lists
    the empty hex string under some label, [identify_file_type] returns a
    label for every readable file, the empty one included: the label of the
    first matching pattern in scan order.  It never returns [None]. *)
Theorem empty_pattern_matches_every_file :
  forall (w : world) (self : scanner) (t : hex_table) (table : SignatureTable)
         (label0 path : string) (content : bytes) (st : state),
    truthy (signature_db self) = true ->
    signatures self = loaded t ->
    decode_table t = Some table ->
    In (label0, "") (hex_scan_order t) ->
    fs w path = File content ->
    (exists label p before after,
        fst (identify_file_type w self path st) = Ok (Some label) /\
        scan_order table = before ++ (label, p) :: after /\
        startswith (firstn 1024 content) p = true /\
        Forall (fun lp => startswith (firstn 1024 content) (snd lp) = false) before) /\
    fst (identify_file_type w self path st) <> Ok None.
Proof.
  intros w self t table label0 path content st Hdb Hsig Hdec Hempty Hfile.
  destruct (decode_table_in t table label0 "" Hdec Hempty) as (p0 & Hp0 & Hin).
  simpl in Hp0. injection Hp0 as <-.
  assert (Hsome : exists label p,
             In (label, p) (scan_order table) /\
             startswith (firstn 1024 content) p = true).
  { exists label0, []. split; [assumption|reflexivity]. }
  destruct (scan_stops_at_first _ t table Hdec Hsome)
    as (label & p & before & after & Hscan & _ & Hsplit & Hp & Hall).
  rewrite (identify_readable w self path content st Hdb Hfile).
  cbn [fst]. rewrite Hsig, Hscan. split.
  - exists label, p, before, after. auto.
  - discriminate.
Qed.

Lemma empty_pattern_matches_every_file_witness :
  (exists label p before after,
      fst (identify_file_type Sample.sample_world
             (Sample.scanner_of Sample.catch_all_table) "empty.bin" initial_state)
      = Ok (Some label) /\
      scan_order Sample.catch_all_patterns
      = before ++ (label, p) :: after /\
      startswith (firstn 1024 []) p = true /\
      Forall (fun lp => startswith (firstn 1024 []) (snd lp) = false) before) /\
  fst (identify_file_type Sample.sample_world
         (Sample.scanner_of Sample.catch_all_table) "empty.bin" initial_state)
  <> Ok None.
Proof.
  apply (empty_pattern_matches_every_file Sample.sample_world
           (Sample.scanner_of Sample.catch_all_table) Sample.catch_all_table
           Sample.catch_all_patterns
           "any" "empty.bin" [] initial_state).
  - reflexivity.
  - reflexivity.
  - reflexivity.
  - simpl. auto.
  - reflexivity.
Defined.

(** C7. On a path that does not exist, [identify_file_type] returns [None]
    without raising; the existence test is its only file-system operation:
    nothing is opened or read. *)
Theorem identify_missing_path :
  forall (w : world) (self : scanner) (path : string) (st : state),
    fs w path = Absent ->
    identify_file_type w self path st
    = (Ok None,
       {| next_handle := next_handle st;
          open_handles := open_handles st;
          trace := trace st ++ [EvExists path] |}).
Proof.
  intros w self path st Habs.
  unfold identify_file_type, bind.
  rewrite os_path_exists_run, Habs. reflexivity.
Qed.

Lemma identify_missing_path_witness :
  identify_file_type Sample.sample_world
    (Sample.scanner_of Sample.ab_table) "gone.bin" initial_state
  = (Ok None,
     {| next_handle := 0; open_handles := []; trace := [EvExists "gone.bin"] |}).
Proof.
  apply (identify_missing_path Sample.sample_world
           (Sample.scanner_of Sample.ab_table) "gone.bin" initial_state).
  reflexivity.
Defined.

(** ** Claims about extraction *)

Lemma not_label (a b : string) : a <> b -> (a =? b) = false.
Proof. intros H. now apply String.eqb_neq. Qed.

(** C3. For a readable file and the label ["image/jpeg"], [extract_data]
    returns the whole content of the file, byte for byte, whatever the
    content is. *)
Theorem whole_file_round_trip :
  forall (w : world) (self : scanner) (path : string) (content : bytes) (st : state),
    fs w path = File content ->
    fst (extract_data w self path IMAGE_JPEG st) = Ok (Some content).
Proof.
  intros w self path content st Hfile.
  unfold extract_data. cbn [String.eqb IMAGE_JPEG OLE_STORAGE Ascii.eqb Bool.eqb].
  unfold try_except, bind.
  rewrite (with_open_read w path content None st Hfile). reflexivity.
Qed.

Lemma whole_file_round_trip_witness :
  fst (extract_data Sample.sample_world (Sample.scanner_of Sample.ab_table)
         "photo.jpg" IMAGE_JPEG initial_state)
  = Ok (Some Sample.jpeg_bytes).
Proof.
  apply (whole_file_round_trip Sample.sample_world
           (Sample.scanner_of Sample.ab_table) "photo.jpg" Sample.jpeg_bytes
           initial_state).
  reflexivity.
Defined.

(** C5, as the code has it.  For a label other than the two that have a
    strategy, [extract_data] returns [None] for every path, whether or not
    it names a readable file, and performs no file-system operation: the
    state is unchanged.  The value carries neither a tag nor the label. *)
Theorem unsupported_label_returns_none :
  forall (w : world) (self : scanner) (path label : string) (st : state),
    label <> OLE_STORAGE ->
    label <> IMAGE_JPEG ->
    extract_data w self path label st = (Ok None, st).
Proof.
  intros w self path label st Hole Hjpeg.
  unfold extract_data.
  rewrite (not_label _ _ Hole), (not_label _ _ Hjpeg). reflexivity.
Qed.

Lemma unsupported_label_returns_none_witness :
  extract_data Sample.sample_world (Sample.scanner_of Sample.ab_table)
    "gone.bin" "text/plain" initial_state
  = (Ok None, initial_state).
Proof.
  apply (unsupported_label_returns_none Sample.sample_world
           (Sample.scanner_of Sample.ab_table) "gone.bin" "text/plain"
           initial_state).
  - discriminate.
  - discriminate.
Defined.

(** C5 as stated fails: the call with an unsupported label and a failed
    whole-file read return the same value, so no reading of the returned
    value tells [Unsupported "text/plain"] from [Failure]. *)
Lemma unsupported_same_value_as_failure :
  ~ exists tag : result (option bytes) -> ExtractionResult,
      tag (fst (extract_data Sample.sample_world
                  (Sample.scanner_of Sample.ab_table)
                  "photo.jpg" "text/plain" initial_state))
      = Unsupported "text/plain" /\
      exists reason,
        tag (fst (extract_data Sample.sample_world
                    (Sample.scanner_of Sample.ab_table)
                    "locked.bin" IMAGE_JPEG initial_state))
        = Failure reason.
Proof.
  intros (tag & Hu & reason & Hf).
  change (tag (Ok None) = Unsupported "text/plain") in Hu.
  change (tag (Ok None) = Failure reason) in Hf.
  rewrite Hu in Hf. discriminate.
Qed.

(** C6, as the code has it.  For a valid container whose directory lists no
    stream, [extract_data] with the label ["application/x-ole-storage"]
    closes the container and returns [None], without raising; no handle
    stays open. *)
Theorem empty_container_returns_none :
  forall (w : world) (self : scanner) (path : string) (ole : ole_container)
         (st : state),
    wf_state st ->
    isOleFile w path = Ok true ->
    OleFileIO w path = Ok ole ->
    listdir ole = [] ->
    extract_data w self path OLE_STORAGE st
    = (Ok None,
       {| next_handle := S (next_handle st);
          open_handles := open_handles st;
          trace := trace st ++ [EvIsOle path; EvOleOpen path;
                                EvOleClose (next_handle st)] |}).
Proof.
  intros w self path ole st Hwf Hvalid Hopen Hdir.
  unfold extract_data. cbn [String.eqb OLE_STORAGE Ascii.eqb Bool.eqb].
  unfold try_except, bind, ole_open, bind, emit, lift.
  rewrite Hvalid, Hopen. cbn [snd first_stream]. rewrite Hdir.
  unfold first_stream, ole_close, release, bind, emit, ret. simpl.
  rewrite Nat.eqb_refl. simpl.
  fold (without (next_handle st) (open_handles st)).
  rewrite (without_fresh st Hwf), <- !app_assoc. reflexivity.
Qed.

Lemma empty_container_returns_none_witness :
  extract_data Sample.sample_world (Sample.scanner_of Sample.ab_table)
    "empty.ole" OLE_STORAGE initial_state
  = (Ok None,
     {| next_handle := 1;
        open_handles := [];
        trace := [EvIsOle "empty.ole"; EvOleOpen "empty.ole"; EvOleClose 0] |}).
Proof.
  apply (empty_container_returns_none Sample.sample_world
           (Sample.scanner_of Sample.ab_table) "empty.ole"
           {| listdir := []; openstream_read := fun _ => Raise OSError |}
           initial_state).
  - constructor.
  - reflexivity.
  - reflexivity.
  - reflexivity.
Defined.

(** C6 as stated fails: a container without streams and a file that is not
    a container give the same value, so no reading of the returned value
    tells [Empty] from [Failure]. *)
Lemma empty_same_value_as_failure :
  ~ exists tag : result (option bytes) -> ExtractionResult,
      tag (fst (extract_data Sample.sample_world
                  (Sample.scanner_of Sample.ab_table)
                  "empty.ole" OLE_STORAGE initial_state))
      = Empty /\
      exists reason,
        tag (fst (extract_data Sample.sample_world
                    (Sample.scanner_of Sample.ab_table)
                    "photo.jpg" OLE_STORAGE initial_state))
        = Failure reason.
Proof.
  intros (tag & He & reason & Hf).
  change (tag (Ok None) = Empty) in He.
  change (tag (Ok None) = Failure reason) in Hf.
  rewrite He in Hf. discriminate.
Qed.

(** ** Claims about construction *)

Section Construction.

Variable w : world.

Lemma truthy_path (db : string) : db <> "" -> truthy (Some db) = true.
Proof. intros H. simpl. now rewrite (not_label _ _ H). Qed.

(** A source that opens and parses is stored as parsed. *)
Lemma init_loaded (db : string) (text : bytes) (v : pyval) (st : state) :
  db <> "" ->
  fs w db = File text ->
  json_load w text = Ok v ->
  fst (__init__ w (Some db) st)
  = Ok {| signature_db := Some db; signatures := v |}.
Proof.
  intros Hdb Hfile Hjson.
  unfold __init__. rewrite (truthy_path db Hdb).
  unfold try_except, bind at 1, with_open, open_file, read_file, close_file,
    release, bind, emit, ret, lift.
  simpl. rewrite Hfile. simpl. rewrite Nat.eqb_refl. simpl.
  rewrite Hfile, Hjson. reflexivity.
Qed.

Lemma init_malformed (db : string) (text : bytes) (st : state) :
  db <> "" ->
  fs w db = File text ->
  json_load w text = Raise JSONDecodeError ->
  fst (__init__ w (Some db) st) = Raise ValueError.
Proof.
  intros Hdb Hfile Hjson.
  unfold __init__. rewrite (truthy_path db Hdb).
  unfold try_except, bind at 1, with_open, open_file, read_file, close_file,
    release, bind, emit, ret, lift.
  simpl. rewrite Hfile. simpl. rewrite Nat.eqb_refl. simpl.
  rewrite Hfile, Hjson. reflexivity.
Qed.

Lemma init_missing (db : string) (st : state) :
  db <> "" ->
  fs w db = Absent ->
  fst (__init__ w (Some db) st) = Raise FileNotFoundError.
Proof.
  intros Hdb Habs.
  unfold __init__. rewrite (truthy_path db Hdb).
  unfold try_except, bind at 1.
  rewrite (with_open_absent w db _ st Habs). reflexivity.
Qed.

End Construction.

(** C8. A signature source whose content the JSON parser rejects makes
    construction raise [ValueError]; a source path that names no file makes
    it raise [FileNotFoundError].  Neither class is an instance of the
    other, and in both cases no scanner is returned, so no identification
    can run. *)
Theorem malformed_and_missing_source :
  forall (w : world) (bad missing : string) (text : bytes) (st : state),
    bad <> "" ->
    fs w bad = File text ->
    json_load w text = Raise JSONDecodeError ->
    missing <> "" ->
    fs w missing = Absent ->
    fst (__init__ w (Some bad) st) = Raise ValueError /\
    fst (__init__ w (Some missing) st) = Raise FileNotFoundError /\
    isinstance ValueError FileNotFoundError = false /\
    isinstance FileNotFoundError ValueError = false /\
    (forall self, fst (__init__ w (Some bad) st) <> Ok self) /\
    (forall self, fst (__init__ w (Some missing) st) <> Ok self).
Proof.
  intros w bad missing text st Hbad Hfile Hjson Hmissing Habs.
  rewrite (init_malformed w bad text st Hbad Hfile Hjson).
  rewrite (init_missing w missing st Hmissing Habs).
  repeat split; try reflexivity; intros self; discriminate.
Qed.

Lemma malformed_and_missing_source_witness :
  fst (__init__ Sample.sample_world (Some "broken.json") initial_state)
  = Raise ValueError /\
  fst (__init__ Sample.sample_world (Some "nowhere.json") initial_state)
  = Raise FileNotFoundError /\
  isinstance ValueError FileNotFoundError = false /\
  isinstance FileNotFoundError ValueError = false /\
  (forall self,
      fst (__init__ Sample.sample_world (Some "broken.json") initial_state)
      <> Ok self) /\
  (forall self,
      fst (__init__ Sample.sample_world (Some "nowhere.json") initial_state)
      <> Ok self).
Proof.
  apply (malformed_and_missing_source Sample.sample_world
           "broken.json" "nowhere.json" (Sample.encode "{not json")
           initial_state).
  - discriminate.
  - reflexivity.
  - reflexivity.
  - discriminate.
  - reflexivity.
Defined.

(** ** Hex decoding *)

Section FlatScan.

Variable header : bytes.

Lemma scan_flat_label (label : string) (hs : list string) (rest : list (string * string)) :
  scan_flat header (map (pair label) hs ++ rest)
  = match scan_signatures header label (map PStr hs) with
    | Ok None => scan_flat header rest
    | r => r
    end.
Proof.
  induction hs as [|h hs IH]; simpl; [reflexivity|].
  destruct (fromhex h) as [p|]; [|reflexivity].
  destruct (startswith header p); [reflexivity|]. exact IH.
Qed.

(** The two nested loops visit the strings in [hex_scan_order]. *)
Lemma scan_table_flat (t : hex_table) :
  scan_table header (loaded t) = scan_flat header (hex_scan_order t).
Proof.
  unfold scan_table, loaded. simpl.
  induction t as [|[label hs] t IH]; simpl; [reflexivity|].
  rewrite scan_flat_label.
  destruct (scan_signatures header label (map PStr hs)) as [[l|]|e];
    [reflexivity|exact IH|reflexivity].
Qed.

(** The scan raises at the first string that is not hex, if nothing
    before it matched. *)
Lemma scan_flat_raises (before after : list (string * string)) (label h : string) :
  Forall (fun lh => exists p, fromhex (snd lh) = Some p /\
                              startswith header p = false) before ->
  fromhex h = None ->
  scan_flat header (before ++ (label, h) :: after) = Raise ValueError.
Proof.
  intros Hbefore Hbad.
  induction Hbefore as [|[l h'] before (p & Hp & Hm) _ IH]; simpl.
  - now rewrite Hbad.
  - simpl in Hp. rewrite Hp, Hm. exact IH.
Qed.

End FlatScan.

(** C4, as the code has it.  Construction does not decode hex: a source
    that parses is stored as parsed, whatever its strings are.  The strings
    are decoded by [identify_file_type], one by one in scan order; it raises
    [ValueError] when it reaches a string that is not hex before any
    pattern has matched. *)
Theorem hex_is_decoded_by_identify :
  forall (w : world) (db path : string) (text content : bytes) (t : hex_table)
         (before after : list (string * string)) (label h : string)
         (st st' : state),
    db <> "" ->
    fs w db = File text ->
    json_load w text = Ok (loaded t) ->
    hex_scan_order t = before ++ (label, h) :: after ->
    Forall (fun lh => exists p, fromhex (snd lh) = Some p /\
                                startswith (firstn 1024 content) p = false)
           before ->
    fromhex h = None ->
    fs w path = File content ->
    exists self,
      fst (__init__ w (Some db) st) = Ok self /\
      signatures self = loaded t /\
      fst (identify_file_type w self path st') = Raise ValueError.
Proof.
  intros w db path text content t before after label h st st'
         Hdb Hsrc Hjson Horder Hbefore Hbad Hfile.
  exists {| signature_db := Some db; signatures := loaded t |}.
  split; [now apply (init_loaded w db text)|].
  split; [reflexivity|].
  rewrite (identify_readable w {| signature_db := Some db; signatures := loaded t |}
             path content st' (truthy_path db Hdb) Hfile).
  cbn [fst signatures].
  rewrite scan_table_flat, Horder.
  now apply scan_flat_raises.
Qed.

Lemma hex_is_decoded_by_identify_witness :
  exists self,
    fst (__init__ Sample.sample_world (Some "zz.json") initial_state) = Ok self /\
    signatures self = loaded Sample.zz_table /\
    fst (identify_file_type Sample.sample_world self "aabb.bin" initial_state)
    = Raise ValueError.
Proof.
  apply (hex_is_decoded_by_identify Sample.sample_world "zz.json" "aabb.bin"
           (Sample.encode Sample.zz_text) Sample.aabb_bytes Sample.zz_table
           [] [("B", "BB")] "A" "ZZ" initial_state initial_state).
  - discriminate.
  - reflexivity.
  - reflexivity.
  - reflexivity.
  - constructor.
  - reflexivity.
  - reflexivity.
Defined.

(** C4 as stated fails: the source [{"A": ["ZZ"], "B": ["BB"]}] holds a
    string that is not hex, construction succeeds on it, and the hex fault
    is raised by the identification that follows. *)
Lemma bad_hex_passes_construction :
  fromhex "ZZ" = None /\
  fst (__init__ Sample.sample_world (Some "zz.json") initial_state)
  = Ok {| signature_db := Some "zz.json"; signatures := loaded Sample.zz_table |} /\
  fst (identify_file_type Sample.sample_world
         {| signature_db := Some "zz.json"; signatures := loaded Sample.zz_table |}
         "aabb.bin"
         (snd (__init__ Sample.sample_world (Some "zz.json") initial_state)))
  = Raise ValueError.
Proof. repeat split. Qed.

(** ** Handles *)

Section Closes.

Variable w : world.

Lemma closes_ret {A} (a : A) : closes (ret a).
Proof. intros st Hwf. split; [exact Hwf|reflexivity]. Qed.

Lemma closes_raise {A} (e : exn_class) : closes (@raise A e).
Proof. intros st Hwf. split; [exact Hwf|reflexivity]. Qed.

Lemma closes_lift {A} (r : result A) : closes (lift r).
Proof. intros st Hwf. split; [exact Hwf|reflexivity]. Qed.

Lemma closes_emit (e : event) : closes (emit e).
Proof. intros st Hwf. split; [exact Hwf|reflexivity]. Qed.

Lemma closes_bind {A B} (m : M A) (k : A -> M B) :
  closes m -> (forall a, closes (k a)) -> closes (bind m k).
Proof.
  intros Hm Hk st Hwf. unfold bind.
  destruct (Hm st Hwf) as [Hwf' Heq].
  destruct (m st) as [[a|e] st']; simpl in *.
  - destruct (Hk a st' Hwf') as [Hwf'' Heq'].
    split; [exact Hwf''|congruence].
  - auto.
Qed.

Lemma closes_handler {A} (hs : handlers A) (e : exn_class) (h : M A) :
  Forall (fun ch => closes (snd ch)) hs ->
  select_handler hs e = Some h -> closes h.
Proof.
  induction 1 as [|[c h'] hs Hc _ IH]; simpl; [discriminate|].
  destruct (isinstance e c); [|exact IH].
  intros Heq. injection Heq as <-. exact Hc.
Qed.

Lemma closes_try_except {A} (body : M A) (hs : handlers A) :
  closes body ->
  Forall (fun ch => closes (snd ch)) hs ->
  closes (try_except body hs).
Proof.
  intros Hbody Hhs st Hwf. unfold try_except.
  destruct (Hbody st Hwf) as [Hwf' Heq].
  destruct (body st) as [[a|e] st']; simpl in *; [auto|].
  destruct (select_handler hs e) as [h|] eqn:Hsel; [|auto].
  destruct (closes_handler hs e h Hhs Hsel st' Hwf') as [Hwf'' Heq'].
  split; [exact Hwf''|congruence].
Qed.

Lemma closes_read_file (h : nat) (size : option nat) : closes (read_file w h size).
Proof.
  intros st Hwf. unfold read_file, bind, emit. cbn [fst snd next_handle open_handles trace].
  destruct (find _ _) as [[h' path]|]; [|auto].
  destruct (fs w path); auto.
Qed.

Lemma open_file_ok (path : string) (st st1 : state) (f : nat) :
  open_file w path st = (Ok f, st1) ->
  f = next_handle st /\
  next_handle st1 = S f /\
  open_handles st1 = (f, path) :: open_handles st.
Proof.
  unfold open_file, bind, emit, raise. cbn [fst snd next_handle open_handles trace].
  destruct (fs w path); intros H; inversion H; subst; simpl; auto.
Qed.

Lemma open_file_raise (path : string) (st st1 : state) (e : exn_class) :
  open_file w path st = (Raise e, st1) ->
  next_handle st1 = next_handle st /\ open_handles st1 = open_handles st.
Proof.
  unfold open_file, bind, emit, raise. cbn [fst snd next_handle open_handles trace].
  destruct (fs w path); intros H; inversion H; subst; simpl; auto.
Qed.

(** The handle a [with] block opens is closed when the block is left,
    if the block itself releases what it opens. *)
Lemma closes_with_open {A} (path : string) (body : nat -> M A) :
  (forall f, closes (body f)) -> closes (with_open w path body).
Proof.
  intros Hbody st Hwf. unfold with_open, bind.
  destruct (open_file w path st) as [[f|e] st1] eqn:Hopen.
  - apply open_file_ok in Hopen as (-> & Hnext & Hopen).
    assert (Hwf1 : wf_state st1).
    { unfold wf_state. rewrite Hnext, Hopen. constructor; [simpl; lia|].
      eapply Forall_impl; [|exact Hwf]. simpl. intros. lia. }
    destruct (Hbody (next_handle st) st1 Hwf1) as [Hwf2 Heq].
    destruct (body (next_handle st) st1) as [r st2].
    unfold close_file, release, bind, emit.
    cbn [fst snd next_handle open_handles trace] in *.
    rewrite Heq, Hopen in *. unfold without at 1 2. simpl.
    rewrite Nat.eqb_refl. simpl.
    fold (without (next_handle st) (open_handles st)).
    rewrite (without_fresh st Hwf).
    split; [|reflexivity].
    unfold wf_state in *. simpl. rewrite Heq in Hwf2. now inversion Hwf2.
  - apply open_file_raise in Hopen as (Hnext & Hopen).
    unfold wf_state in *. simpl. rewrite Hnext, Hopen. auto.
Qed.

Create HintDb closes.
#[local] Hint Resolve closes_ret closes_raise closes_lift closes_emit
  closes_read_file : closes.

Ltac closes_step :=
  match goal with
  | |- closes (bind _ _) => apply closes_bind; [|intros ?]
  | |- closes (try_except _ _) => apply closes_try_except
  | |- Forall _ (_ :: _) => apply Forall_cons; [cbn [snd]|]
  | |- Forall _ [] => apply Forall_nil
  | |- closes (with_open _ _ _) => apply closes_with_open; intros ?
  | |- closes (if ?b then _ else _) => destruct b
  | |- closes (match ?x with Some _ => _ | None => _ end) => destruct x
  | |- closes _ => solve [auto with closes]
  end.

(** After an identification, whatever its outcome, the handles open are
    those open before. *)
Lemma identify_releases_handles (self : scanner) (path : string) :
  closes (identify_file_type w self path).
Proof.
  unfold identify_file_type, os_path_exists. repeat closes_step.
Qed.

(** The same holds for construction, *)
Lemma init_releases_handles (signature_db : option string) :
  closes (__init__ w signature_db).
Proof.
  unfold __init__. destruct signature_db as [db|]; repeat closes_step.
Qed.

(** and for extraction under every label but the container one. *)
Lemma extract_releases_handles (self : scanner) (path label : string) :
  label <> OLE_STORAGE ->
  closes (extract_data w self path label).
Proof.
  intros Hlabel. unfold extract_data.
  rewrite (not_label _ _ Hlabel). repeat closes_step.
Qed.

End Closes.

(** C9, where the code departs from it.  On a valid container whose
    directory starts with a named entry that reads, [extract_data] returns
    the stream's bytes and leaves the container's handle in the table of
    open handles: the trace of the call has no [EvOleClose].  (The path
    that finds no stream does close it.) *)
Theorem container_handle_left_open :
  forall (w : world) (self : scanner) (path name0 : string)
         (names : list string) (rest : list (list string))
         (ole : ole_container) (data : bytes) (st : state),
    isOleFile w path = Ok true ->
    OleFileIO w path = Ok ole ->
    listdir ole = (name0 :: names) :: rest ->
    openstream_read ole name0 = Ok data ->
    extract_data w self path OLE_STORAGE st
    = (Ok (Some data),
       {| next_handle := S (next_handle st);
          open_handles := (next_handle st, path) :: open_handles st;
          trace := trace st ++ [EvIsOle path; EvOleOpen path;
                                EvOleStream (next_handle st) name0] |}).
Proof.
  intros w self path name0 names rest ole data st Hvalid Hopen Hdir Hread.
  unfold extract_data. cbn [String.eqb OLE_STORAGE Ascii.eqb Bool.eqb].
  unfold try_except, bind, ole_open, bind, emit, lift.
  rewrite Hvalid, Hopen. cbn [snd]. rewrite Hdir.
  unfold first_stream, ole_openstream_read, bind, emit, lift, ret. simpl.
  rewrite Hread, <- !app_assoc. reflexivity.
Qed.

Lemma container_handle_left_open_witness :
  extract_data Sample.sample_world (Sample.scanner_of Sample.ab_table)
    "doc.ole" OLE_STORAGE initial_state
  = (Ok (Some Sample.stream_bytes),
     {| next_handle := 1;
        open_handles := [(0, "doc.ole")];
        trace := [EvIsOle "doc.ole"; EvOleOpen "doc.ole";
                  EvOleStream 0 "WordDocument"] |}).
Proof.
  apply (container_handle_left_open Sample.sample_world
           (Sample.scanner_of Sample.ab_table) "doc.ole" "WordDocument"
           [] [["Macros"; "VBA"; "dir"]]
           {| listdir := [["WordDocument"]; ["Macros"; "VBA"; "dir"]];
              openstream_read := fun name =>
                if name =? "WordDocument" then Ok Sample.stream_bytes
                else Raise OSError |}
           Sample.stream_bytes initial_state).
  - reflexivity.
  - reflexivity.
  - reflexivity.
  - reflexivity.
Defined.

(** * Further properties of the class *)

(** ** Reading a file that does not read *)

Section Unreadable.

Variable w : world.

Lemma with_open_denied {A} (path : string) (body : nat -> M A) (st : state) :
  fs w path = Denied ->
  with_open w path body st
  = (Raise OSError,
     {| next_handle := next_handle st;
        open_handles := open_handles st;
        trace := trace st ++ [EvOpen path] |}).
Proof.
  intros Hnode. unfold with_open, open_file, bind, emit, raise.
  simpl. rewrite Hnode. reflexivity.
Qed.

Lemma with_open_faulty (path : string) (size : option nat) (st : state) :
  fs w path = Faulty ->
  with_open w path (fun f => read_file w f size) st
  = (Raise OSError,
     {| next_handle := S (next_handle st);
        open_handles := without (next_handle st) (open_handles st);
        trace := trace st ++ [EvOpen path; EvRead (next_handle st);
                              EvClose (next_handle st)] |}).
Proof.
  intros Hnode.
  unfold with_open, open_file, read_file, close_file, release, bind, emit, ret.
  simpl. rewrite Hnode. simpl. rewrite Nat.eqb_refl. simpl.
  rewrite Hnode. simpl. unfold without. simpl. rewrite Nat.eqb_refl. simpl.
  rewrite <- !app_assoc. reflexivity.
Qed.

(** Reading fails with an [OSError] exactly when the path does not name a
    readable file. *)
Lemma with_open_unreadable (path : string) (size : option nat) (st : state) :
  (forall content, fs w path <> File content) ->
  exists e, fst (with_open w path (fun f => read_file w f size) st) = Raise e /\
            isinstance e OSError = true.
Proof.
  intros Hnot. destruct (fs w path) as [| | |content] eqn:Hnode.
  - rewrite (with_open_absent w path _ st Hnode). exists FileNotFoundError. auto.
  - rewrite (with_open_denied path _ st Hnode). exists OSError. auto.
  - rewrite (with_open_faulty path size st Hnode). exists OSError. auto.
  - now destruct (Hnot content).
Qed.

End Unreadable.

(** ** More on identification *)

Section Identify.

Variable w : world.

(** Without a table, identification of a readable file is what the
    classifier says about its first 1024 bytes; an empty answer or an
    exception of the classifier gives [None]. *)
Lemma identify_classified (self : scanner) (path : string) (content : bytes) (st : state) :
  truthy (signature_db self) = false ->
  fs w path = File content ->
  identify_file_type w self path st
  = (Ok match magic_from_buffer w (firstn 1024 content) with
        | Ok mime_type => if mime_type =? "" then None else Some mime_type
        | Raise _ => None
        end,
     {| next_handle := S (next_handle st);
        open_handles := without (next_handle st) (open_handles st);
        trace := trace st ++ [EvExists path; EvOpen path;
                              EvRead (next_handle st);
                              EvClose (next_handle st); EvMagic] |}).
Proof.
  intros Hdb Hfile.
  unfold identify_file_type, bind at 1.
  rewrite os_path_exists_run, Hfile. cbn [negb].
  unfold bind at 1, try_except at 1, bind at 1.
  rewrite (with_open_read w path content (Some 1024) _ Hfile).
  cbn [ret next_handle open_handles trace]. rewrite Hdb.
  unfold try_except, bind, emit, lift, ret.
  cbn [next_handle open_handles trace].
  rewrite <- !app_assoc. cbn [app].
  destruct (magic_from_buffer w (firstn 1024 content)) as [mime|e].
  - destruct (mime =? ""); reflexivity.
  - cbn [select_handler].
    replace (isinstance e Exception) with true by (now destruct e).
    reflexivity.
Qed.

Lemma identify_absent (self : scanner) (path : string) (st : state) :
  fs w path = Absent ->
  identify_file_type w self path st
  = (Ok None,
     {| next_handle := next_handle st;
        open_handles := open_handles st;
        trace := trace st ++ [EvExists path] |}).
Proof.
  intros Habs. unfold identify_file_type, bind.
  rewrite os_path_exists_run, Habs. reflexivity.
Qed.

Lemma identify_denied (self : scanner) (path : string) (st : state) :
  fs w path = Denied ->
  identify_file_type w self path st
  = (Ok None,
     {| next_handle := next_handle st;
        open_handles := open_handles st;
        trace := trace st ++ [EvExists path; EvOpen path] |}).
Proof.
  intros Hnode.
  unfold identify_file_type, bind at 1.
  rewrite os_path_exists_run, Hnode. cbn [negb].
  unfold bind at 1, try_except, bind at 1.
  rewrite (with_open_denied w path _ _ Hnode).
  cbn [select_handler isinstance isinstance_upto exn_class_beq orb
       ret next_handle open_handles trace].
  rewrite <- app_assoc. reflexivity.
Qed.

Lemma identify_faulty (self : scanner) (path : string) (st : state) :
  fs w path = Faulty ->
  identify_file_type w self path st
  = (Ok None,
     {| next_handle := S (next_handle st);
        open_handles := without (next_handle st) (open_handles st);
        trace := trace st ++ [EvExists path; EvOpen path;
                              EvRead (next_handle st);
                              EvClose (next_handle st)] |}).
Proof.
  intros Hnode.
  unfold identify_file_type, bind at 1.
  rewrite os_path_exists_run, Hnode. cbn [negb].
  unfold bind at 1, try_except, bind at 1.
  rewrite (with_open_faulty w path (Some 1024) _ Hnode).
  cbn [select_handler isinstance isinstance_upto exn_class_beq orb
       ret next_handle open_handles trace].
  rewrite <- app_assoc. reflexivity.
Qed.

End Identify.

(** ** Construction, beyond the two errors it translates *)

(** X1. Without a database path, or with the empty string, construction
    touches no file: it returns a scanner with an empty table and leaves
    the state as it was. *)
Theorem init_without_database :
  forall (w : world) (db : option string) (st : state),
    truthy db = false ->
    __init__ w db st
    = (Ok {| signature_db := db; signatures := PDict [] |}, st).
Proof.
  intros w [db|] st Hdb; unfold __init__; [rewrite Hdb|]; reflexivity.
Qed.

Lemma init_without_database_witness :
  __init__ Sample.sample_world (Some "") initial_state
  = (Ok {| signature_db := Some ""; signatures := PDict [] |}, initial_state).
Proof.
  apply (init_without_database Sample.sample_world (Some "") initial_state).
  reflexivity.
Defined.

(** X2. An exception of the JSON parser is translated only if it is a
    [JSONDecodeError] (to [ValueError]) or a [FileNotFoundError]; any other
    one, a [UnicodeDecodeError] for instance, leaves construction as it
    is. *)
Theorem init_parser_exception :
  forall (w : world) (db : string) (text : bytes) (e : exn_class) (st : state),
    db <> "" ->
    fs w db = File text ->
    json_load w text = Raise e ->
    fst (__init__ w (Some db) st)
    = Raise (if isinstance e FileNotFoundError then FileNotFoundError
             else if isinstance e JSONDecodeError then ValueError
             else e).
Proof.
  intros w db text e st Hdb Hfile Hjson.
  unfold __init__. rewrite (truthy_path db Hdb).
  unfold try_except, bind at 1, with_open, open_file, read_file, close_file,
    release, bind, emit, ret, lift.
  simpl. rewrite Hfile. simpl. rewrite Nat.eqb_refl. simpl.
  rewrite Hfile, Hjson. simpl.
  destruct (isinstance e FileNotFoundError); [reflexivity|].
  destruct (isinstance e JSONDecodeError); reflexivity.
Qed.

Lemma init_parser_exception_witness :
  fst (__init__ Sample.sample_world (Some "broken.json") initial_state)
  = Raise (if isinstance JSONDecodeError FileNotFoundError then FileNotFoundError
           else if isinstance JSONDecodeError JSONDecodeError then ValueError
           else JSONDecodeError).
Proof.
  apply (init_parser_exception Sample.sample_world "broken.json"
           (Sample.encode "{not json") JSONDecodeError initial_state).
  - discriminate.
  - reflexivity.
  - reflexivity.
Defined.

(** X3. A source that exists but cannot be opened, or whose read fails,
    makes construction raise [OSError]: neither of the two errors that
    [main] reports as a bad database. *)
Theorem init_unreadable_source :
  forall (w : world) (db : string) (st : state),
    db <> "" ->
    fs w db = Denied \/ fs w db = Faulty ->
    fst (__init__ w (Some db) st) = Raise OSError /\
    isinstance OSError FileNotFoundError = false /\
    isinstance OSError ValueError = false.
Proof.
  intros w db st Hdb Hnode.
  split; [|split; reflexivity].
  unfold __init__. rewrite (truthy_path db Hdb).
  unfold try_except, bind at 1.
  destruct Hnode as [Hnode|Hnode].
  - rewrite (with_open_denied w db _ st Hnode). reflexivity.
  - unfold with_open, open_file, read_file, close_file, release, bind, emit,
      ret, lift.
    simpl. rewrite Hnode. simpl. rewrite Nat.eqb_refl. simpl.
    rewrite Hnode. reflexivity.
Qed.

Lemma init_unreadable_source_witness :
  fst (__init__ Sample.sample_world (Some "locked.bin") initial_state)
  = Raise OSError /\
  isinstance OSError FileNotFoundError = false /\
  isinstance OSError ValueError = false.
Proof.
  apply (init_unreadable_source Sample.sample_world "locked.bin" initial_state).
  - discriminate.
  - left. reflexivity.
Defined.

(** ** Identification: files that do not read, and the classifier *)

(** X4. On a path that exists but does not read (it cannot be opened, or
    its read fails), [identify_file_type] returns [None] in both modes,
    without raising. *)
Theorem identify_unreadable_is_none :
  forall (w : world) (self : scanner) (path : string) (st : state),
    fs w path = Denied \/ fs w path = Faulty ->
    fst (identify_file_type w self path st) = Ok None.
Proof.
  intros w self path st [Hnode|Hnode].
  - now rewrite (identify_denied w self path st Hnode).
  - now rewrite (identify_faulty w self path st Hnode).
Qed.

Lemma identify_unreadable_is_none_witness :
  fst (identify_file_type Sample.sample_world
         (Sample.scanner_of Sample.ab_table) "locked.bin" initial_state)
  = Ok None.
Proof.
  apply (identify_unreadable_is_none Sample.sample_world
           (Sample.scanner_of Sample.ab_table) "locked.bin" initial_state).
  left. reflexivity.
Defined.

(** X5. Without a database, [identify_file_type] never raises: it returns
    the classifier's answer on the first 1024 bytes of a readable file when
    that answer is a non-empty string, and [None] in every other case (no
    file, unreadable file, empty answer, exception of the classifier).  The
    stored table plays no part. *)
Theorem identify_without_database :
  forall (w : world) (self : scanner) (path : string) (st : state),
    truthy (signature_db self) = false ->
    fst (identify_file_type w self path st)
    = Ok match fs w path with
         | File content =>
             match magic_from_buffer w (firstn 1024 content) with
             | Ok mime_type => if mime_type =? "" then None else Some mime_type
             | Raise _ => None
             end
         | _ => None
         end.
Proof.
  intros w self path st Hdb.
  destruct (fs w path) as [| | |content] eqn:Hnode.
  - now rewrite (identify_absent w self path st Hnode).
  - now rewrite (identify_denied w self path st Hnode).
  - now rewrite (identify_faulty w self path st Hnode).
  - now rewrite (identify_classified w self path content st Hdb Hnode).
Qed.

Lemma identify_without_database_witness :
  fst (identify_file_type Sample.sample_world
         {| signature_db := None; signatures := loaded Sample.ab_table |}
         "photo.jpg" initial_state)
  = Ok match fs Sample.sample_world "photo.jpg" with
       | File content =>
           match magic_from_buffer Sample.sample_world (firstn 1024 content) with
           | Ok mime_type => if mime_type =? "" then None else Some mime_type
           | Raise _ => None
           end
       | _ => None
       end.
Proof.
  apply (identify_without_database Sample.sample_world
           {| signature_db := None; signatures := loaded Sample.ab_table |}
           "photo.jpg" initial_state).
  reflexivity.
Defined.

(** X6. With a database, the classifier is never consulted: in two worlds
    that agree on the file, whatever their classifiers, the call gives the
    same result and the same trace. *)
Theorem identify_with_database_ignores_classifier :
  forall (w w' : world) (self : scanner) (path : string) (st : state),
    truthy (signature_db self) = true ->
    fs w path = fs w' path ->
    identify_file_type w self path st = identify_file_type w' self path st.
Proof.
  intros w w' self path st Hdb Hsame.
  destruct (fs w path) as [| | |content] eqn:Hnode; symmetry in Hsame.
  - now rewrite (identify_absent w self path st Hnode),
      (identify_absent w' self path st Hsame).
  - now rewrite (identify_denied w self path st Hnode),
      (identify_denied w' self path st Hsame).
  - now rewrite (identify_faulty w self path st Hnode),
      (identify_faulty w' self path st Hsame).
  - now rewrite (identify_readable w self path content st Hdb Hnode),
      (identify_readable w' self path content st Hdb Hsame).
Qed.

Lemma identify_with_database_ignores_classifier_witness :
  identify_file_type Sample.sample_world
    (Sample.scanner_of Sample.ab_table) "photo.jpg" initial_state
  = identify_file_type Sample2.silent_world
      (Sample.scanner_of Sample.ab_table) "photo.jpg" initial_state.
Proof.
  apply (identify_with_database_ignores_classifier Sample.sample_world
           Sample2.silent_world (Sample.scanner_of Sample.ab_table)
           "photo.jpg" initial_state).
  - reflexivity.
  - reflexivity.
Defined.

(** X7. Identification looks at the first 1024 bytes only: two readable
    files that agree on them get the same answer, in both modes. *)
Theorem identify_reads_only_the_prefix :
  forall (w : world) (self : scanner) (path path' : string)
         (content content' : bytes) (st st' : state),
    fs w path = File content ->
    fs w path' = File content' ->
    firstn 1024 content = firstn 1024 content' ->
    fst (identify_file_type w self path st)
    = fst (identify_file_type w self path' st').
Proof.
  intros w self path path' content content' st st' Hfile Hfile' Hprefix.
  destruct (truthy (signature_db self)) eqn:Hdb.
  - rewrite (identify_readable w self path content st Hdb Hfile).
    rewrite (identify_readable w self path' content' st' Hdb Hfile').
    cbn [fst]. now rewrite Hprefix.
  - rewrite (identify_classified w self path content st Hdb Hfile).
    rewrite (identify_classified w self path' content' st' Hdb Hfile').
    cbn [fst]. now rewrite Hprefix.
Qed.

Lemma identify_reads_only_the_prefix_witness :
  fst (identify_file_type Sample.sample_world
         (Sample.scanner_of Sample.catch_all_table) "doc.ole" initial_state)
  = fst (identify_file_type Sample.sample_world
           (Sample.scanner_of Sample.catch_all_table) "empty.ole" initial_state).
Proof.
  apply (identify_reads_only_the_prefix Sample.sample_world
           (Sample.scanner_of Sample.catch_all_table) "doc.ole" "empty.ole"
           [xd0; xcf; x11; xe0] [xd0; xcf; x11; xe0] initial_state initial_state).
  - reflexivity.
  - reflexivity.
  - reflexivity.
Defined.

(** X8. The classifier is never given more than 1024 bytes: two worlds that
    agree on the file and whose classifiers agree on every buffer of at
    most 1024 bytes identify it alike. *)
Theorem classifier_sees_at_most_1024_bytes :
  forall (w w' : world) (self : scanner) (path : string) (st : state),
    fs w path = fs w' path ->
    (forall buf, List.length buf <= 1024 ->
                 magic_from_buffer w buf = magic_from_buffer w' buf) ->
    identify_file_type w self path st = identify_file_type w' self path st.
Proof.
  intros w w' self path st Hsame Hmagic.
  destruct (truthy (signature_db self)) eqn:Hdb.
  - destruct (fs w path) as [| | |content] eqn:Hnode; symmetry in Hsame.
    + now rewrite (identify_absent w self path st Hnode),
        (identify_absent w' self path st Hsame).
    + now rewrite (identify_denied w self path st Hnode),
        (identify_denied w' self path st Hsame).
    + now rewrite (identify_faulty w self path st Hnode),
        (identify_faulty w' self path st Hsame).
    + now rewrite (identify_readable w self path content st Hdb Hnode),
        (identify_readable w' self path content st Hdb Hsame).
  - destruct (fs w path) as [| | |content] eqn:Hnode; symmetry in Hsame.
    + now rewrite (identify_absent w self path st Hnode),
        (identify_absent w' self path st Hsame).
    + now rewrite (identify_denied w self path st Hnode),
        (identify_denied w' self path st Hsame).
    + now rewrite (identify_faulty w self path st Hnode),
        (identify_faulty w' self path st Hsame).
    + rewrite (identify_classified w self path content st Hdb Hnode).
      rewrite (identify_classified w' self path content st Hdb Hsame).
      rewrite (Hmagic (firstn 1024 content)); [reflexivity|].
      apply firstn_le_length.
Qed.

Lemma classifier_sees_at_most_1024_bytes_witness :
  identify_file_type Sample.sample_world
    {| signature_db := None; signatures := PDict [] |} "photo.jpg" initial_state
  = identify_file_type Sample2.capped_world
      {| signature_db := None; signatures := PDict [] |} "photo.jpg" initial_state.
Proof.
  apply (classifier_sees_at_most_1024_bytes Sample.sample_world
           Sample2.capped_world {| signature_db := None; signatures := PDict [] |}
           "photo.jpg" initial_state).
  - reflexivity.
  - intros buf Hlen. simpl.
    apply Nat.leb_le in Hlen. rewrite Hlen. reflexivity.
Defined.

(** ** Identification: the table *)

Section ScanOutcomes.

Variable header : bytes.

Lemma scan_signatures_raises (file_type : string) (sigs : list pyval) (e : exn_class) :
  scan_signatures header file_type sigs = Raise e ->
  e = TypeError \/ e = ValueError.
Proof.
  induction sigs as [|sig sigs IH]; simpl; [discriminate|].
  destruct (py_fromhex sig) as [p|e'] eqn:Ep.
  - destruct (startswith header p); [discriminate|exact IH].
  - intros H. injection H as <-.
    destruct sig; simpl in Ep; try (injection Ep as <-; auto).
    destruct (fromhex s); [discriminate|]. injection Ep as <-. auto.
Qed.

Lemma scan_items_raises (items : list (string * pyval)) (e : exn_class) :
  scan_items header items = Raise e ->
  e = TypeError \/ e = ValueError.
Proof.
  induction items as [|[ft sv] items IH]; simpl; [discriminate|].
  destruct (py_iter sv) as [sigs|e'] eqn:Ei.
  - destruct (scan_signatures header ft sigs) as [[l|]|e'] eqn:Es.
    + discriminate.
    + exact IH.
    + intros H. injection H as <-. now apply scan_signatures_raises in Es.
  - intros H. injection H as <-.
    destruct sv; simpl in Ei; try discriminate; injection Ei as <-; auto.
Qed.

Lemma scan_table_raises (table : pyval) (e : exn_class) :
  scan_table header table = Raise e ->
  (e = AttributeError /\ forall d, table <> PDict d) \/
  ((e = TypeError \/ e = ValueError) /\ exists d, table = PDict d).
Proof.
  unfold scan_table.
  destruct table; simpl;
    try (intros H; injection H as <-; left; split; [reflexivity|discriminate]).
  intros H. right. split; [now apply scan_items_raises in H|eauto].
Qed.

End ScanOutcomes.

(** X9. With a table of decodable strings loaded, a readable file is left
    unidentified exactly when none of the patterns is a prefix of its first
    1024 bytes. *)
Theorem identify_none_iff_no_match :
  forall (w : world) (self : scanner) (t : hex_table) (table : SignatureTable)
         (path : string) (content : bytes) (st : state),
    truthy (signature_db self) = true ->
    signatures self = loaded t ->
    decode_table t = Some table ->
    fs w path = File content ->
    fst (identify_file_type w self path st) = Ok None <->
    Forall (fun lp => startswith (firstn 1024 content) (snd lp) = false)
           (scan_order table).
Proof.
  intros w self t table path content st Hdb Hsig Hdec Hfile.
  rewrite (identify_readable w self path content st Hdb Hfile). cbn [fst].
  rewrite Hsig, (scan_table_decoded _ t table Hdec). unfold first_match.
  rewrite Forall_forall. split.
  - intros H lp Hin.
    destruct (find _ (scan_order table)) as [x|] eqn:Hfind; [discriminate|].
    exact (find_none _ _ Hfind lp Hin).
  - intros Hall.
    destruct (find _ (scan_order table)) as [x|] eqn:Hfind; [|reflexivity].
    apply find_some in Hfind as [Hin Hx].
    rewrite (Hall x Hin) in Hx. discriminate.
Qed.

Lemma identify_none_iff_no_match_witness :
  fst (identify_file_type Sample.sample_world
         (Sample.scanner_of Sample.ab_table) "photo.jpg" initial_state)
  = Ok None <->
  Forall (fun lp => startswith (firstn 1024 Sample.jpeg_bytes) (snd lp) = false)
         (scan_order Sample2.ab_patterns).
Proof.
  apply (identify_none_iff_no_match Sample.sample_world
           (Sample.scanner_of Sample.ab_table) Sample.ab_table
           Sample2.ab_patterns "photo.jpg" Sample.jpeg_bytes initial_state).
  - reflexivity.
  - reflexivity.
  - reflexivity.
  - reflexivity.
Defined.

(** X10. Patterns of more than 1024 bytes are dead: a table that holds only
    such patterns identifies no file at all. *)
Theorem long_patterns_never_match :
  forall (w : world) (self : scanner) (t : hex_table) (table : SignatureTable)
         (path : string) (content : bytes) (st : state),
    truthy (signature_db self) = true ->
    signatures self = loaded t ->
    decode_table t = Some table ->
    Forall (fun lp => 1024 < List.length (snd lp)) (scan_order table) ->
    fs w path = File content ->
    fst (identify_file_type w self path st) = Ok None.
Proof.
  intros w self t table path content st Hdb Hsig Hdec Hlong Hfile.
  rewrite (identify_readable w self path content st Hdb Hfile). cbn [fst].
  rewrite Hsig, (scan_table_decoded _ t table Hdec). unfold first_match.
  destruct (find _ (scan_order table)) as [x|] eqn:Hfind; [|reflexivity].
  apply find_some in Hfind as [Hin Hx].
  rewrite Forall_forall in Hlong. specialize (Hlong x Hin). cbv beta in Hlong.
  apply startswith_length in Hx.
  pose proof (firstn_le_length 1024 content) as Hcap.
  exfalso. apply (Nat.lt_irrefl 1024).
  eapply Nat.lt_le_trans; [exact Hlong|].
  eapply Nat.le_trans; [exact Hx|exact Hcap].
Qed.

Lemma long_patterns_never_match_witness :
  fst (identify_file_type Sample.sample_world
         (Sample.scanner_of Sample2.long_table) "empty.bin" initial_state)
  = Ok None.
Proof.
  apply (long_patterns_never_match Sample.sample_world
           (Sample.scanner_of Sample2.long_table) Sample2.long_table
           Sample2.long_patterns "empty.bin" [] initial_state).
  - reflexivity.
  - reflexivity.
  - vm_compute. reflexivity.
  - constructor; [|constructor].
    cbn [snd]. rewrite repeat_length. lia.
  - reflexivity.
Defined.

(** X11. [identify_file_type] raises only with a database, only on a
    readable file, and only one of [AttributeError], [TypeError] and
    [ValueError]: the faults of a table that is not a mapping from labels
    to lists of hex strings. *)
Theorem identify_raises_only :
  forall (w : world) (self : scanner) (path : string) (st : state) (e : exn_class),
    fst (identify_file_type w self path st) = Raise e ->
    truthy (signature_db self) = true /\
    (exists content, fs w path = File content) /\
    (e = AttributeError \/ e = TypeError \/ e = ValueError).
Proof.
  intros w self path st e.
  destruct (fs w path) as [| | |content] eqn:Hnode.
  - now rewrite (identify_absent w self path st Hnode).
  - now rewrite (identify_denied w self path st Hnode).
  - now rewrite (identify_faulty w self path st Hnode).
  - destruct (truthy (signature_db self)) eqn:Hdb.
    + rewrite (identify_readable w self path content st Hdb Hnode). cbn [fst].
      intros H. split; [reflexivity|]. split; [eauto|].
      apply scan_table_raises in H as [[-> _]|[[->| ->] _]]; auto.
    + now rewrite (identify_classified w self path content st Hdb Hnode).
Qed.

Lemma identify_raises_only_witness :
  truthy (signature_db (Sample.scanner_of Sample.zz_table)) = true /\
  (exists content, fs Sample.sample_world "aabb.bin" = File content) /\
  (ValueError = AttributeError \/ ValueError = TypeError \/ ValueError = ValueError).
Proof.
  apply (identify_raises_only Sample.sample_world
           (Sample.scanner_of Sample.zz_table) "aabb.bin" initial_state ValueError).
  reflexivity.
Defined.

(** X12. On a readable file, [identify_file_type] raises [AttributeError]
    exactly when the loaded value is not a dictionary (a JSON list, string,
    number, [true], [false] or [null]). *)
Theorem identify_attribute_error_iff_not_dict :
  forall (w : world) (self : scanner) (path : string) (content : bytes) (st : state),
    truthy (signature_db self) = true ->
    fs w path = File content ->
    fst (identify_file_type w self path st) = Raise AttributeError <->
    forall d, signatures self <> PDict d.
Proof.
  intros w self path content st Hdb Hfile.
  rewrite (identify_readable w self path content st Hdb Hfile). cbn [fst].
  split.
  - intros H. apply scan_table_raises in H as [[_ H]|[[H|H] _]];
      [exact H|discriminate|discriminate].
  - intros Hnot. unfold scan_table.
    destruct (signatures self); try reflexivity.
    now destruct (Hnot d).
Qed.

Lemma identify_attribute_error_iff_not_dict_witness :
  fst (identify_file_type Sample.sample_world
         {| signature_db := Some "list.json"; signatures := PList [PStr "AA"] |}
         "aabb.bin" initial_state)
  = Raise AttributeError <->
  forall d, PList [PStr "AA"] <> PDict d.
Proof.
  apply (identify_attribute_error_iff_not_dict Sample.sample_world
           {| signature_db := Some "list.json"; signatures := PList [PStr "AA"] |}
           "aabb.bin" Sample.aabb_bytes initial_state).
  - reflexivity.
  - reflexivity.
Defined.

Lemma fromhex_single (c : ascii) :
  fromhex (String c EmptyString) = if is_space c then Some [] else None.
Proof.
  simpl. destruct (is_space c); [reflexivity|].
  destruct (hex_digit c); reflexivity.
Qed.

(** X13. A label whose value is a string instead of a list of strings is
    scanned character by character.  A single character is never a pattern
    of its own: if the first character is white space it decodes to the
    empty pattern and the label is returned for every readable file;
    otherwise the call raises [ValueError]. *)
Theorem identify_string_for_a_list :
  forall (w : world) (self : scanner) (label : string) (c : ascii) (s : string)
         (rest : list (string * pyval)) (path : string) (content : bytes)
         (st : state),
    truthy (signature_db self) = true ->
    signatures self = PDict ((label, PStr (String c s)) :: rest) ->
    fs w path = File content ->
    fst (identify_file_type w self path st)
    = if is_space c then Ok (Some label) else Raise ValueError.
Proof.
  intros w self label c s rest path content st Hdb Hsig Hfile.
  rewrite (identify_readable w self path content st Hdb Hfile). cbn [fst].
  rewrite Hsig. unfold scan_table.
  cbn [py_items scan_items py_iter list_ascii_of_string map scan_signatures
       py_fromhex].
  rewrite fromhex_single.
  destruct (is_space c); reflexivity.
Qed.

Lemma identify_string_for_a_list_witness :
  fst (identify_file_type Sample.sample_world
         {| signature_db := Some "flat.json";
            signatures := PDict [("A", PStr "AA")] |}
         "aabb.bin" initial_state)
  = if is_space "A" then Ok (Some "A") else Raise ValueError.
Proof.
  apply (identify_string_for_a_list Sample.sample_world
           {| signature_db := Some "flat.json";
              signatures := PDict [("A", PStr "AA")] |}
           "A" "A"%char "A" [] "aabb.bin" Sample.aabb_bytes initial_state).
  - reflexivity.
  - reflexivity.
  - reflexivity.
Defined.

(** ** Extraction *)


(** X15. A file that [olefile.isOleFile] rejects is never opened as a
    container: the container strategy returns [None] after the probe
    alone. *)
Theorem not_a_container_returns_none :
  forall (w : world) (self : scanner) (path : string) (st : state),
    isOleFile w path = Ok false ->
    extract_data w self path OLE_STORAGE st
    = (Ok None,
       {| next_handle := next_handle st;
          open_handles := open_handles st;
          trace := trace st ++ [EvIsOle path] |}).
Proof.
  intros w self path st Hprobe.
  unfold extract_data. cbn [String.eqb OLE_STORAGE Ascii.eqb Bool.eqb].
  unfold try_except, bind, emit, lift. rewrite Hprobe. reflexivity.
Qed.

Lemma not_a_container_returns_none_witness :
  extract_data Sample.sample_world (Sample.scanner_of Sample.ab_table)
    "photo.jpg" OLE_STORAGE initial_state
  = (Ok None,
     {| next_handle := 0; open_handles := []; trace := [EvIsOle "photo.jpg"] |}).
Proof.
  apply (not_a_container_returns_none Sample.sample_world
           (Sample.scanner_of Sample.ab_table) "photo.jpg" initial_state).
  reflexivity.
Defined.






(** X18. Construction, identification and extraction under every label
    but the container one release what they open on every path: from a
    state whose open handles are all below the next one, each of them ends,
    by a value or by an exception, with the same handles open. *)
Theorem calls_leave_no_handle :
  forall (w : world) (db : option string) (self : scanner)
         (path label : string) (st : state),
    wf_state st ->
    label <> OLE_STORAGE ->
    open_handles (snd (__init__ w db st)) = open_handles st /\
    open_handles (snd (identify_file_type w self path st)) = open_handles st /\
    open_handles (snd (extract_data w self path label st)) = open_handles st.
Proof.
  intros w db self path label st Hwf Hlabel.
  split; [|split].
  - apply (init_releases_handles w db st Hwf).
  - apply (identify_releases_handles w self path st Hwf).
  - apply (extract_releases_handles w self path label Hlabel st Hwf).
Qed.

Lemma calls_leave_no_handle_witness :
  open_handles (snd (__init__ Sample.sample_world (Some "ab.json") initial_state))
  = open_handles initial_state /\
  open_handles (snd (identify_file_type Sample.sample_world
                       (Sample.scanner_of Sample.ab_table) "photo.jpg"
                       initial_state))
  = open_handles initial_state /\
  open_handles (snd (extract_data Sample.sample_world
                       (Sample.scanner_of Sample.ab_table) "photo.jpg"
                       IMAGE_JPEG initial_state))
  = open_handles initial_state.
Proof.
  apply (calls_leave_no_handle Sample.sample_world (Some "ab.json")
           (Sample.scanner_of Sample.ab_table) "photo.jpg" IMAGE_JPEG
           initial_state).
  - constructor.
  - discriminate.
Defined.

(** * Properties of the command line *)

Section MainRuns.

Variable w : world.
Variable sinks : string -> Cli.sink.

(** [main] turns an exception of its body into a message and exit code 1,
    and returns otherwise. *)
Lemma main_run (a : Cli.args) (p : Cli.process) :
  Cli.main w sinks a p
  = match Cli.main_body w sinks a p with
    | (Ok _, p') => (Ok Cli.Returned, p')
    | (Raise e, p') =>
        (Ok (Cli.SystemExit 1),
         {| Cli.io := Cli.io p';
            Cli.out := Cli.out p' ++
              [Cli.PrintExn
                 (if isinstance e FileNotFoundError || isinstance e ValueError
                  then "Error: " else "An unexpected error occurred: ") e] |})
    end.
Proof.
  unfold Cli.main, Cli.ptry, Cli.pbind.
  destruct (Cli.main_body w sinks a p) as [[u|e] p']; [reflexivity|].
  cbn [Cli.select].
  destruct (isinstance e FileNotFoundError); [reflexivity|].
  destruct (isinstance e ValueError); [reflexivity|].
  replace (isinstance e Exception) with true by (now destruct e).
  reflexivity.
Qed.

(** The body, call by call. *)
Lemma body_init_raises (a : Cli.args) (p : Cli.process) (e : exn_class) (st1 : state) :
  __init__ w (Cli.database a) (Cli.io p) = (Raise e, st1) ->
  Cli.main_body w sinks a p = (Raise e, {| Cli.io := st1; Cli.out := Cli.out p |}).
Proof.
  intros Hinit. unfold Cli.main_body, Cli.pbind, Cli.call.
  rewrite Hinit. reflexivity.
Qed.

Lemma body_identify_raises (a : Cli.args) (p : Cli.process) (self : scanner)
    (e : exn_class) (st1 st2 : state) :
  __init__ w (Cli.database a) (Cli.io p) = (Ok self, st1) ->
  identify_file_type w self (Cli.file_path a) st1 = (Raise e, st2) ->
  Cli.main_body w sinks a p = (Raise e, {| Cli.io := st2; Cli.out := Cli.out p |}).
Proof.
  intros Hinit Hident. unfold Cli.main_body, Cli.pbind, Cli.call.
  rewrite Hinit. cbn [Cli.io Cli.out]. rewrite Hident. reflexivity.
Qed.

Lemma body_not_identified (a : Cli.args) (p : Cli.process) (self : scanner)
    (file_type : option string) (st1 st2 : state) :
  __init__ w (Cli.database a) (Cli.io p) = (Ok self, st1) ->
  identify_file_type w self (Cli.file_path a) st1 = (Ok file_type, st2) ->
  truthy file_type = false ->
  Cli.main_body w sinks a p
  = (Ok tt, {| Cli.io := st2;
               Cli.out := Cli.out p ++ [Cli.Print "File type not identified."] |}).
Proof.
  intros Hinit Hident Hfalse. unfold Cli.main_body, Cli.pbind, Cli.call.
  rewrite Hinit. cbn [Cli.io Cli.out]. rewrite Hident. cbn [Cli.io Cli.out].
  destruct file_type as [ft|]; [rewrite Hfalse|]; reflexivity.
Qed.

(** The body once a type is identified: the line that names it, then the
    extraction if it is asked for. *)
Lemma body_identified (a : Cli.args) (p : Cli.process) (self : scanner)
    (ft : string) (st1 st2 : state) :
  __init__ w (Cli.database a) (Cli.io p) = (Ok self, st1) ->
  identify_file_type w self (Cli.file_path a) st1 = (Ok (Some ft), st2) ->
  ft <> "" ->
  Cli.main_body w sinks a p
  = (if Cli.extract a then
       Cli.pbind (Cli.call (extract_data w self (Cli.file_path a) ft))
         (fun extracted_data =>
            match extracted_data with
            | Some data =>
                if Cli.nonempty extracted_data then
                  match Cli.output a with
                  | Some path =>
                      if truthy (Cli.output a) then
                        Cli.ptry
                          (Cli.pbind (Cli.save sinks path data) (fun _ =>
                             Cli.write (Cli.Print ("Extracted data saved to: " ++ path))))
                          [ (OSError, fun e =>
                               Cli.write (Cli.PrintExn
                                 "Error writing extracted data to file: " e)) ]
                      else Cli.write (Cli.StdoutBytes data)
                  | None => Cli.write (Cli.StdoutBytes data)
                  end
                else Cli.write (Cli.Print "No data extracted.")
            | None => Cli.write (Cli.Print "No data extracted.")
            end)
     else Cli.pret tt)
    {| Cli.io := st2;
       Cli.out := Cli.out p ++ [Cli.Print ("Identified file type: " ++ ft)] |}.
Proof.
  intros Hinit Hident Hft. unfold Cli.main_body, Cli.pbind at 1 2, Cli.call at 1 2.
  rewrite Hinit. cbn [Cli.io Cli.out]. rewrite Hident. cbn [Cli.io Cli.out].
  rewrite (truthy_path ft Hft). reflexivity.
Qed.

End MainRuns.

Section Saving.

Variable sinks : string -> Cli.sink.

Lemma save_writable (path : string) (data : bytes) (st : state) (o : list Cli.written) :
  sinks path = Cli.Writable ->
  Cli.save sinks path data {| Cli.io := st; Cli.out := o |}
  = (Ok tt,
     {| Cli.io := {| next_handle := S (next_handle st);
                     open_handles := without (next_handle st) (open_handles st);
                     trace := trace st ++ [EvOpen path; EvClose (next_handle st)] |};
        Cli.out := o ++ [Cli.FileBytes path data] |}).
Proof.
  intros Hsink.
  unfold Cli.save, Cli.pbind, Cli.call, Cli.open_wb, Cli.file_write, Cli.write,
    close_file, release, bind, emit, raise.
  cbn [Cli.io Cli.out fst snd next_handle open_handles trace].
  rewrite Hsink. cbn [Cli.io Cli.out fst snd next_handle open_handles trace].
  unfold without at 1. cbn [filter fst]. rewrite Nat.eqb_refl. cbn [negb].
  fold (without (next_handle st) (open_handles st)).
  rewrite <- app_assoc. reflexivity.
Qed.

(** A destination that does not open, or whose write fails: [OSError], and
    nothing written. *)
Lemma save_fails (path : string) (data : bytes) (st : state) (o : list Cli.written) :
  sinks path <> Cli.Writable ->
  exists st',
    Cli.save sinks path data {| Cli.io := st; Cli.out := o |}
    = (Raise OSError, {| Cli.io := st'; Cli.out := o |}).
Proof.
  intros Hsink.
  unfold Cli.save, Cli.pbind, Cli.call, Cli.open_wb, Cli.file_write, Cli.write,
    close_file, release, bind, emit, raise.
  cbn [Cli.io Cli.out fst snd next_handle open_handles trace].
  destruct (sinks path); [now destruct Hsink| |];
    cbn [Cli.io Cli.out fst snd next_handle open_handles trace]; eauto.
Qed.

End Saving.

(** ** How [main] ends *)


(** X20. When construction raises, [main] examines no file: it prints one
    line and exits with code 1.  The line starts with ["Error: "] for a
    [FileNotFoundError] or a [ValueError], and with ["An unexpected error
    occurred: "] for anything else. *)
Theorem main_bad_database :
  forall (w : world) (sinks : string -> Cli.sink) (a : Cli.args) (p : Cli.process)
         (e : exn_class) (st1 : state),
    __init__ w (Cli.database a) (Cli.io p) = (Raise e, st1) ->
    Cli.main w sinks a p
    = (Ok (Cli.SystemExit 1),
       {| Cli.io := st1;
          Cli.out := Cli.out p ++
            [Cli.PrintExn
               (if isinstance e FileNotFoundError || isinstance e ValueError
                then "Error: " else "An unexpected error occurred: ") e] |}).
Proof.
  intros w sinks a p e st1 Hinit.
  rewrite main_run, (body_init_raises w sinks a p e st1 Hinit). reflexivity.
Qed.

Lemma main_bad_database_witness :
  Sample2.run {| Cli.file_path := "photo.jpg";
                 Cli.database := Some "locked.bin";
                 Cli.extract := true;
                 Cli.output := None |}
  = (Ok (Cli.SystemExit 1),
     {| Cli.io := {| next_handle := 0; open_handles := [];
                     trace := [EvOpen "locked.bin"] |};
        Cli.out := [Cli.PrintExn "An unexpected error occurred: " OSError] |}).
Proof.
  apply (main_bad_database Sample.sample_world Sample2.sample_sinks
           {| Cli.file_path := "photo.jpg";
              Cli.database := Some "locked.bin";
              Cli.extract := true;
              Cli.output := None |}
           Cli.start OSError).
  reflexivity.
Defined.

(** X21. When identification raises, [main] prints one line, extracts
    nothing and exits with code 1.  A string of the table that is not hex
    is reported as ["Error: "], like a malformed database. *)
Theorem main_identification_raises :
  forall (w : world) (sinks : string -> Cli.sink) (a : Cli.args) (p : Cli.process)
         (self : scanner) (e : exn_class) (st1 st2 : state),
    __init__ w (Cli.database a) (Cli.io p) = (Ok self, st1) ->
    identify_file_type w self (Cli.file_path a) st1 = (Raise e, st2) ->
    Cli.main w sinks a p
    = (Ok (Cli.SystemExit 1),
       {| Cli.io := st2;
          Cli.out := Cli.out p ++
            [Cli.PrintExn
               (if isinstance e FileNotFoundError || isinstance e ValueError
                then "Error: " else "An unexpected error occurred: ") e] |}).
Proof.
  intros w sinks a p self e st1 st2 Hinit Hident.
  rewrite main_run, (body_identify_raises w sinks a p self e st1 st2 Hinit Hident).
  reflexivity.
Qed.

Lemma main_identification_raises_witness :
  Sample2.run {| Cli.file_path := "aabb.bin";
                 Cli.database := Some "zz.json";
                 Cli.extract := true;
                 Cli.output := Some "out.bin" |}
  = (Ok (Cli.SystemExit 1),
     {| Cli.io := {| next_handle := 2; open_handles := [];
                     trace := [EvOpen "zz.json"; EvRead 0; EvClose 0;
                               EvExists "aabb.bin"; EvOpen "aabb.bin";
                               EvRead 1; EvClose 1] |};
        Cli.out := [Cli.PrintExn "Error: " ValueError] |}).
Proof.
  apply (main_identification_raises Sample.sample_world Sample2.sample_sinks
           {| Cli.file_path := "aabb.bin";
              Cli.database := Some "zz.json";
              Cli.extract := true;
              Cli.output := Some "out.bin" |}
           Cli.start
           {| signature_db := Some "zz.json"; signatures := loaded Sample.zz_table |}
           ValueError
           {| next_handle := 1; open_handles := [];
              trace := [EvOpen "zz.json"; EvRead 0; EvClose 0] |}).
  - reflexivity.
  - reflexivity.
Defined.

(** X22. When identification returns [None] or the empty label, [main]
    prints ["File type not identified."] and returns, with or without
    [--extract]: nothing is extracted or written. *)
Theorem main_not_identified :
  forall (w : world) (sinks : string -> Cli.sink) (a : Cli.args) (p : Cli.process)
         (self : scanner) (file_type : option string) (st1 st2 : state),
    __init__ w (Cli.database a) (Cli.io p) = (Ok self, st1) ->
    identify_file_type w self (Cli.file_path a) st1 = (Ok file_type, st2) ->
    truthy file_type = false ->
    Cli.main w sinks a p
    = (Ok Cli.Returned,
       {| Cli.io := st2;
          Cli.out := Cli.out p ++ [Cli.Print "File type not identified."] |}).
Proof.
  intros w sinks a p self file_type st1 st2 Hinit Hident Hfalse.
  rewrite main_run,
    (body_not_identified w sinks a p self file_type st1 st2 Hinit Hident Hfalse).
  reflexivity.
Qed.

Lemma main_not_identified_witness :
  Sample2.run {| Cli.file_path := "gone.bin";
                 Cli.database := Some "ab.json";
                 Cli.extract := true;
                 Cli.output := Some "out.bin" |}
  = (Ok Cli.Returned,
     {| Cli.io := {| next_handle := 1; open_handles := [];
                     trace := [EvOpen "ab.json"; EvRead 0; EvClose 0;
                               EvExists "gone.bin"] |};
        Cli.out := [Cli.Print "File type not identified."] |}).
Proof.
  apply (main_not_identified Sample.sample_world Sample2.sample_sinks
           {| Cli.file_path := "gone.bin";
              Cli.database := Some "ab.json";
              Cli.extract := true;
              Cli.output := Some "out.bin" |}
           Cli.start
           {| signature_db := Some "ab.json"; signatures := loaded Sample.ab_table |}
           None
           {| next_handle := 1; open_handles := [];
              trace := [EvOpen "ab.json"; EvRead 0; EvClose 0] |}).
  - reflexivity.
  - reflexivity.
  - reflexivity.
Defined.

(** ** What [main] writes *)

(** X23. Without [--extract], an identified file costs one line: [main]
    prints the type and returns in the state identification left; the
    extraction strategies are not run and [--output] is not opened. *)
Theorem main_without_extract :
  forall (w : world) (sinks : string -> Cli.sink) (a : Cli.args) (p : Cli.process)
         (self : scanner) (ft : string) (st1 st2 : state),
    Cli.extract a = false ->
    __init__ w (Cli.database a) (Cli.io p) = (Ok self, st1) ->
    identify_file_type w self (Cli.file_path a) st1 = (Ok (Some ft), st2) ->
    ft <> "" ->
    Cli.main w sinks a p
    = (Ok Cli.Returned,
       {| Cli.io := st2;
          Cli.out := Cli.out p ++ [Cli.Print ("Identified file type: " ++ ft)] |}).
Proof.
  intros w sinks a p self ft st1 st2 Hflag Hinit Hident Hft.
  rewrite main_run, (body_identified w sinks a p self ft st1 st2 Hinit Hident Hft).
  rewrite Hflag. reflexivity.
Qed.

Lemma main_without_extract_witness :
  Sample2.run {| Cli.file_path := "photo.jpg";
                 Cli.database := None;
                 Cli.extract := false;
                 Cli.output := Some "out.bin" |}
  = (Ok Cli.Returned,
     {| Cli.io := {| next_handle := 1; open_handles := [];
                     trace := [EvExists "photo.jpg"; EvOpen "photo.jpg";
                               EvRead 0; EvClose 0; EvMagic] |};
        Cli.out := [Cli.Print "Identified file type: image/jpeg"] |}).
Proof.
  apply (main_without_extract Sample.sample_world Sample2.sample_sinks
           {| Cli.file_path := "photo.jpg";
              Cli.database := None;
              Cli.extract := false;
              Cli.output := Some "out.bin" |}
           Cli.start
           {| signature_db := None; signatures := PDict [] |}
           "image/jpeg" initial_state).
  - reflexivity.
  - reflexivity.
  - reflexivity.
  - discriminate.
Defined.

(** X24. With [--extract], a payload that is [None] or empty is reported
    as ["No data extracted."]: nothing is written, not even an empty
    file. *)
Theorem main_no_data :
  forall (w : world) (sinks : string -> Cli.sink) (a : Cli.args) (p : Cli.process)
         (self : scanner) (ft : string) (extracted_data : option bytes)
         (st1 st2 st3 : state),
    Cli.extract a = true ->
    __init__ w (Cli.database a) (Cli.io p) = (Ok self, st1) ->
    identify_file_type w self (Cli.file_path a) st1 = (Ok (Some ft), st2) ->
    ft <> "" ->
    extract_data w self (Cli.file_path a) ft st2 = (Ok extracted_data, st3) ->
    Cli.nonempty extracted_data = false ->
    Cli.main w sinks a p
    = (Ok Cli.Returned,
       {| Cli.io := st3;
          Cli.out := Cli.out p ++ [Cli.Print ("Identified file type: " ++ ft);
                                   Cli.Print "No data extracted."] |}).
Proof.
  intros w sinks a p self ft extracted_data st1 st2 st3
         Hflag Hinit Hident Hft Hextract Hempty.
  rewrite main_run, (body_identified w sinks a p self ft st1 st2 Hinit Hident Hft).
  rewrite Hflag. unfold Cli.pbind, Cli.call. cbn [Cli.io Cli.out].
  rewrite Hextract.
  destruct extracted_data as [data|]; [rewrite Hempty|];
    unfold Cli.write; cbn [Cli.io Cli.out]; rewrite <- app_assoc; reflexivity.
Qed.

Lemma main_no_data_witness :
  Sample2.run {| Cli.file_path := "aabb.bin";
                 Cli.database := Some "ab.json";
                 Cli.extract := true;
                 Cli.output := Some "out.bin" |}
  = (Ok Cli.Returned,
     {| Cli.io := {| next_handle := 2; open_handles := [];
                     trace := [EvOpen "ab.json"; EvRead 0; EvClose 0;
                               EvExists "aabb.bin"; EvOpen "aabb.bin";
                               EvRead 1; EvClose 1] |};
        Cli.out := [Cli.Print "Identified file type: A";
                    Cli.Print "No data extracted."] |}).
Proof.
  apply (main_no_data Sample.sample_world Sample2.sample_sinks
           {| Cli.file_path := "aabb.bin";
              Cli.database := Some "ab.json";
              Cli.extract := true;
              Cli.output := Some "out.bin" |}
           Cli.start
           {| signature_db := Some "ab.json"; signatures := loaded Sample.ab_table |}
           "A" None
           {| next_handle := 1; open_handles := [];
              trace := [EvOpen "ab.json"; EvRead 0; EvClose 0] |}
           {| next_handle := 2; open_handles := [];
              trace := [EvOpen "ab.json"; EvRead 0; EvClose 0;
                        EvExists "aabb.bin"; EvOpen "aabb.bin";
                        EvRead 1; EvClose 1] |}).
  - reflexivity.
  - reflexivity.
  - reflexivity.
  - discriminate.
  - reflexivity.
  - reflexivity.
Defined.

Lemma main_saved_run :
  forall (w : world) (sinks : string -> Cli.sink) (a : Cli.args) (p : Cli.process)
         (self : scanner) (ft path : string) (b : byte) (data : bytes)
         (st1 st2 st3 : state),
    Cli.extract a = true ->
    Cli.output a = Some path ->
    path <> "" ->
    sinks path = Cli.Writable ->
    __init__ w (Cli.database a) (Cli.io p) = (Ok self, st1) ->
    identify_file_type w self (Cli.file_path a) st1 = (Ok (Some ft), st2) ->
    ft <> "" ->
    extract_data w self (Cli.file_path a) ft st2 = (Ok (Some (b :: data)), st3) ->
    Cli.main w sinks a p
    = (Ok Cli.Returned,
       {| Cli.io := {| next_handle := S (next_handle st3);
                       open_handles := without (next_handle st3) (open_handles st3);
                       trace := trace st3 ++ [EvOpen path;
                                              EvClose (next_handle st3)] |};
          Cli.out := Cli.out p ++ [Cli.Print ("Identified file type: " ++ ft);
                                   Cli.FileBytes path (b :: data);
                                   Cli.Print ("Extracted data saved to: " ++ path)] |}).
Proof.
  intros w sinks a p self ft path b data st1 st2 st3
         Hflag Hout Hpath Hsink Hinit Hident Hft Hextract.
  rewrite main_run, (body_identified w sinks a p self ft st1 st2 Hinit Hident Hft).
  rewrite Hflag. unfold Cli.pbind at 1, Cli.call. cbn [Cli.io Cli.out].
  rewrite Hextract. cbn [Cli.nonempty]. rewrite Hout, (truthy_path path Hpath).
  unfold Cli.ptry, Cli.pbind.
  rewrite (save_writable sinks path (b :: data) st3 _ Hsink).
  unfold Cli.write. cbn [Cli.io Cli.out]. rewrite <- !app_assoc. reflexivity.
Qed.

(** X25. With [--extract] and a destination that can be written, a
    non-empty payload is written to it unchanged, between the line that
    names the type and the line that names the destination; the
    destination is closed again. *)
Theorem main_saves_payload :
  forall (w : world) (sinks : string -> Cli.sink) (a : Cli.args) (p : Cli.process)
         (self : scanner) (ft path : string) (b : byte) (data : bytes)
         (st1 st2 st3 : state),
    Cli.extract a = true ->
    Cli.output a = Some path ->
    path <> "" ->
    sinks path = Cli.Writable ->
    __init__ w (Cli.database a) (Cli.io p) = (Ok self, st1) ->
    identify_file_type w self (Cli.file_path a) st1 = (Ok (Some ft), st2) ->
    ft <> "" ->
    extract_data w self (Cli.file_path a) ft st2 = (Ok (Some (b :: data)), st3) ->
    Cli.main w sinks a p
    = (Ok Cli.Returned,
       {| Cli.io := {| next_handle := S (next_handle st3);
                       open_handles := without (next_handle st3) (open_handles st3);
                       trace := trace st3 ++ [EvOpen path;
                                              EvClose (next_handle st3)] |};
          Cli.out := Cli.out p ++ [Cli.Print ("Identified file type: " ++ ft);
                                   Cli.FileBytes path (b :: data);
                                   Cli.Print ("Extracted data saved to: " ++ path)] |}).
Proof.
  intros w sinks a p self ft path b data st1 st2 st3.
  apply main_saved_run.
Qed.

Lemma main_saves_payload_witness :
  Sample2.run {| Cli.file_path := "photo.jpg";
                 Cli.database := None;
                 Cli.extract := true;
                 Cli.output := Some "out.bin" |}
  = (Ok Cli.Returned,
     {| Cli.io := {| next_handle := 3; open_handles := [];
                     trace := [EvExists "photo.jpg"; EvOpen "photo.jpg";
                               EvRead 0; EvClose 0; EvMagic;
                               EvOpen "photo.jpg"; EvRead 1; EvClose 1;
                               EvOpen "out.bin"; EvClose 2] |};
        Cli.out := [Cli.Print "Identified file type: image/jpeg";
                    Cli.FileBytes "out.bin" [xff; xd8; xff; xe0; x00; x10];
                    Cli.Print "Extracted data saved to: out.bin"] |}).
Proof.
  apply (main_saves_payload Sample.sample_world Sample2.sample_sinks
           {| Cli.file_path := "photo.jpg";
              Cli.database := None;
              Cli.extract := true;
              Cli.output := Some "out.bin" |}
           Cli.start
           {| signature_db := None; signatures := PDict [] |}
           "image/jpeg" "out.bin" xff [xd8; xff; xe0; x00; x10]
           initial_state
           {| next_handle := 1; open_handles := [];
              trace := [EvExists "photo.jpg"; EvOpen "photo.jpg";
                        EvRead 0; EvClose 0; EvMagic] |}
           {| next_handle := 2; open_handles := [];
              trace := [EvExists "photo.jpg"; EvOpen "photo.jpg";
                        EvRead 0; EvClose 0; EvMagic;
                        EvOpen "photo.jpg"; EvRead 1; EvClose 1] |}).
  - reflexivity.
  - reflexivity.
  - discriminate.
  - reflexivity.
  - reflexivity.
  - reflexivity.
  - discriminate.
  - reflexivity.
Defined.

(** X26. A destination that cannot be opened, or whose write fails, does
    not change how [main] ends: it prints the write error after the type
    and returns, as on success; nothing is recorded as written. *)
Theorem main_write_failure_returns :
  forall (w : world) (sinks : string -> Cli.sink) (a : Cli.args) (p : Cli.process)
         (self : scanner) (ft path : string) (b : byte) (data : bytes)
         (st1 st2 st3 : state),
    Cli.extract a = true ->
    Cli.output a = Some path ->
    path <> "" ->
    sinks path <> Cli.Writable ->
    __init__ w (Cli.database a) (Cli.io p) = (Ok self, st1) ->
    identify_file_type w self (Cli.file_path a) st1 = (Ok (Some ft), st2) ->
    ft <> "" ->
    extract_data w self (Cli.file_path a) ft st2 = (Ok (Some (b :: data)), st3) ->
    fst (Cli.main w sinks a p) = Ok Cli.Returned /\
    Cli.out (snd (Cli.main w sinks a p))
    = Cli.out p ++ [Cli.Print ("Identified file type: " ++ ft);
                    Cli.PrintExn "Error writing extracted data to file: " OSError].
Proof.
  intros w sinks a p self ft path b data st1 st2 st3
         Hflag Hout Hpath Hsink Hinit Hident Hft Hextract.
  destruct (save_fails sinks path (b :: data) st3
              (Cli.out p ++ [Cli.Print ("Identified file type: " ++ ft)]) Hsink)
    as [st' Hsave].
  assert (Hrun : Cli.main w sinks a p
                 = (Ok Cli.Returned,
                    {| Cli.io := st';
                       Cli.out := Cli.out p ++
                         [Cli.Print ("Identified file type: " ++ ft);
                          Cli.PrintExn "Error writing extracted data to file: "
                                       OSError] |})).
  { rewrite main_run,
      (body_identified w sinks a p self ft st1 st2 Hinit Hident Hft).
    rewrite Hflag. unfold Cli.pbind at 1, Cli.call. cbn [Cli.io Cli.out].
    rewrite Hextract. cbn [Cli.nonempty]. rewrite Hout, (truthy_path path Hpath).
    unfold Cli.ptry, Cli.pbind. rewrite Hsave.
    cbn [Cli.select isinstance isinstance_upto exn_class_beq orb].
    unfold Cli.write. cbn [Cli.io Cli.out]. rewrite <- !app_assoc. reflexivity. }
  rewrite Hrun. split; reflexivity.
Qed.

Lemma main_write_failure_returns_witness :
  fst (Sample2.run {| Cli.file_path := "photo.jpg";
                      Cli.database := None;
                      Cli.extract := true;
                      Cli.output := Some "full.bin" |})
  = Ok Cli.Returned /\
  Cli.out (snd (Sample2.run {| Cli.file_path := "photo.jpg";
                               Cli.database := None;
                               Cli.extract := true;
                               Cli.output := Some "full.bin" |}))
  = [Cli.Print "Identified file type: image/jpeg";
     Cli.PrintExn "Error writing extracted data to file: " OSError].
Proof.
  apply (main_write_failure_returns Sample.sample_world Sample2.sample_sinks
           {| Cli.file_path := "photo.jpg";
              Cli.database := None;
              Cli.extract := true;
              Cli.output := Some "full.bin" |}
           Cli.start
           {| signature_db := None; signatures := PDict [] |}
           "image/jpeg" "full.bin" xff [xd8; xff; xe0; x00; x10]
           initial_state
           {| next_handle := 1; open_handles := [];
              trace := [EvExists "photo.jpg"; EvOpen "photo.jpg";
                        EvRead 0; EvClose 0; EvMagic] |}
           {| next_handle := 2; open_handles := [];
              trace := [EvExists "photo.jpg"; EvOpen "photo.jpg";
                        EvRead 0; EvClose 0; EvMagic;
                        EvOpen "photo.jpg"; EvRead 1; EvClose 1] |}).
  - reflexivity.
  - reflexivity.
  - discriminate.
  - discriminate.
  - reflexivity.
  - reflexivity.
  - discriminate.
  - reflexivity.
Defined.

(** X27. With [--extract] and no destination ([--output] absent or empty),
    a non-empty payload goes to standard output unchanged, and no file is
    opened for writing. *)
Theorem main_streams_to_stdout :
  forall (w : world) (sinks : string -> Cli.sink) (a : Cli.args) (p : Cli.process)
         (self : scanner) (ft : string) (b : byte) (data : bytes)
         (st1 st2 st3 : state),
    Cli.extract a = true ->
    truthy (Cli.output a) = false ->
    __init__ w (Cli.database a) (Cli.io p) = (Ok self, st1) ->
    identify_file_type w self (Cli.file_path a) st1 = (Ok (Some ft), st2) ->
    ft <> "" ->
    extract_data w self (Cli.file_path a) ft st2 = (Ok (Some (b :: data)), st3) ->
    Cli.main w sinks a p
    = (Ok Cli.Returned,
       {| Cli.io := st3;
          Cli.out := Cli.out p ++ [Cli.Print ("Identified file type: " ++ ft);
                                   Cli.StdoutBytes (b :: data)] |}).
Proof.
  intros w sinks a p self ft b data st1 st2 st3
         Hflag Hout Hinit Hident Hft Hextract.
  rewrite main_run, (body_identified w sinks a p self ft st1 st2 Hinit Hident Hft).
  rewrite Hflag. unfold Cli.pbind at 1, Cli.call. cbn [Cli.io Cli.out].
  rewrite Hextract. cbn [Cli.nonempty].
  destruct (Cli.output a) as [path|]; [rewrite Hout|];
    unfold Cli.write; cbn [Cli.io Cli.out]; rewrite <- !app_assoc; reflexivity.
Qed.

Lemma main_streams_to_stdout_witness :
  Sample2.run {| Cli.file_path := "photo.jpg";
                 Cli.database := None;
                 Cli.extract := true;
                 Cli.output := Some "" |}
  = (Ok Cli.Returned,
     {| Cli.io := {| next_handle := 2; open_handles := [];
                     trace := [EvExists "photo.jpg"; EvOpen "photo.jpg";
                               EvRead 0; EvClose 0; EvMagic;
                               EvOpen "photo.jpg"; EvRead 1; EvClose 1] |};
        Cli.out := [Cli.Print "Identified file type: image/jpeg";
                    Cli.StdoutBytes [xff; xd8; xff; xe0; x00; x10]] |}).
Proof.
  apply (main_streams_to_stdout Sample.sample_world Sample2.sample_sinks
           {| Cli.file_path := "photo.jpg";
              Cli.database := None;
              Cli.extract := true;
              Cli.output := Some "" |}
           Cli.start
           {| signature_db := None; signatures := PDict [] |}
           "image/jpeg" xff [xd8; xff; xe0; x00; x10]
           initial_state
           {| next_handle := 1; open_handles := [];
              trace := [EvExists "photo.jpg"; EvOpen "photo.jpg";
                        EvRead 0; EvClose 0; EvMagic] |}).
  - reflexivity.
  - reflexivity.
  - reflexivity.
  - reflexivity.
  - discriminate.
  - reflexivity.
Defined.

(** ** End to end *)

Lemma extract_whole_file_run (w : world) (self : scanner) (path : string)
    (content : bytes) (st : state) :
  fs w path = File content ->
  extract_data w self path "image/jpeg" st
  = (Ok (Some content),
     {| next_handle := S (next_handle st);
        open_handles := without (next_handle st) (open_handles st);
        trace := trace st ++ [EvOpen path; EvRead (next_handle st);
                              EvClose (next_handle st)] |}).
Proof.
  intros Hfile.
  unfold extract_data. cbn [String.eqb IMAGE_JPEG OLE_STORAGE Ascii.eqb Bool.eqb].
  unfold try_except, bind.
  rewrite (with_open_read w path content None st Hfile). reflexivity.
Qed.

(** X28. Without a database, when the classifier calls a non-empty
    readable file ["image/jpeg"], [main --extract --output path] with a
    destination that can be written copies the file: what it writes to
    [path] is the content of the file, byte for byte. *)
Theorem main_copies_a_jpeg :
  forall (w : world) (sinks : string -> Cli.sink) (a : Cli.args) (p : Cli.process)
         (b : byte) (rest : bytes) (path : string),
    truthy (Cli.database a) = false ->
    Cli.extract a = true ->
    Cli.output a = Some path ->
    path <> "" ->
    sinks path = Cli.Writable ->
    fs w (Cli.file_path a) = File (b :: rest) ->
    magic_from_buffer w (firstn 1024 (b :: rest)) = Ok "image/jpeg" ->
    fst (Cli.main w sinks a p) = Ok Cli.Returned /\
    Cli.out (snd (Cli.main w sinks a p))
    = Cli.out p ++ [Cli.Print "Identified file type: image/jpeg";
                    Cli.FileBytes path (b :: rest);
                    Cli.Print ("Extracted data saved to: " ++ path)].
Proof.
  intros w sinks a p b rest path Hdb Hflag Hout Hpath Hsink Hfile Hmagic.
  set (self := {| signature_db := Cli.database a; signatures := PDict [] |}).
  assert (Hinit : __init__ w (Cli.database a) (Cli.io p) = (Ok self, Cli.io p)).
  { unfold __init__, self. destruct (Cli.database a) as [db|];
      [rewrite Hdb|]; reflexivity. }
  pose proof (identify_classified w self (Cli.file_path a) (b :: rest)
                (Cli.io p) Hdb Hfile) as Hident.
  rewrite Hmagic in Hident.
  change (if "image/jpeg" =? "" then None else Some "image/jpeg")
    with (Some "image/jpeg") in Hident.
  assert (Hft : "image/jpeg" <> "") by discriminate.
  rewrite (main_saved_run w sinks a p self "image/jpeg" path b rest _ _ _
             Hflag Hout Hpath Hsink Hinit Hident Hft
             (extract_whole_file_run w self (Cli.file_path a) (b :: rest) _ Hfile)).
  split; reflexivity.
Qed.

Lemma main_copies_a_jpeg_witness :
  fst (Sample2.run {| Cli.file_path := "photo.jpg";
                      Cli.database := Some "";
                      Cli.extract := true;
                      Cli.output := Some "out.bin" |})
  = Ok Cli.Returned /\
  Cli.out (snd (Sample2.run {| Cli.file_path := "photo.jpg";
                               Cli.database := Some "";
                               Cli.extract := true;
                               Cli.output := Some "out.bin" |}))
  = [Cli.Print "Identified file type: image/jpeg";
     Cli.FileBytes "out.bin" Sample.jpeg_bytes;
     Cli.Print "Extracted data saved to: out.bin"].
Proof.
  apply (main_copies_a_jpeg Sample.sample_world Sample2.sample_sinks
           {| Cli.file_path := "photo.jpg";
              Cli.database := Some "";
              Cli.extract := true;
              Cli.output := Some "out.bin" |}
           Cli.start xff [xd8; xff; xe0; x00; x10] "out.bin").
  - reflexivity.
  - reflexivity.
  - reflexivity.
  - discriminate.
  - reflexivity.
  - reflexivity.
  - reflexivity.
Defined.
